(** * RAG email compliance system: risk scoring, retrieval and batch classification

    A shallow embedding of
      - [src/utils/risk_calculator.py]  ([RiskCalculator.calculate_risk_score]),
      - [src/vectorstore/vector_db.py]  ([VectorStoreManager]),
      - [src/rag/retriever.py]          ([ComplianceRetriever]),
      - [src/rag/classifier.py]         ([EmailClassifier]),
      - [src/models/llm_models.py]      ([create_document_from_row]),
      - [src/utils/shared_resources.py] ([SharedResources]),
    with the properties stated about them.

    Conventions.  A Python [str] is a [string] whose characters are code
    points below 256.  Python numbers ([int] or [float]) are kept behind the
    interface [PyNum]; [Z] is the instance of whole-number weights.  A Python
    call that can raise returns an [outcome].  The language model, the
    embedding-based index and the retriever object are collaborators of the
    code: they appear as section variables, and since they need not answer
    the same way twice, calls to them thread a state of the outside world
    ([Eff]). *)

From Stdlib Require Import ZArith List Ascii String Bool Lia Permutation Sorted.
From Stdlib Require Import Floats.SpecFloat.
From stdpp Require Import base gmap strings list pretty.

Open Scope string_scope.
Open Scope Z_scope.
Open Scope list_scope.

(** ** Python strings *)

Module PyStr.

Definition code (c : ascii) : nat := nat_of_ascii c.

Definition between (lo hi n : nat) : bool := (Nat.leb lo n && Nat.leb n hi)%bool.

(** [str.isspace] on one character (code points below 256). *)
Definition is_space (c : ascii) : bool :=
  let n := code c in
  (between 9 13 n || between 28 32 n || Nat.eqb n 133 || Nat.eqb n 160)%bool.

(** [str.lower] on one character: A-Z and the Latin-1 capitals. *)
Definition lower_char (c : ascii) : ascii :=
  let n := code c in
  if (between 65 90 n || between 192 214 n || between 216 222 n)%bool
  then ascii_of_nat (n + 32) else c.

(** [s.lower()] *)
Fixpoint lower (s : string) : string :=
  match s with
  | EmptyString => EmptyString
  | String c s' => String (lower_char c) (lower s')
  end.

(** [s.lstrip()] *)
Fixpoint lstrip (s : string) : string :=
  match s with
  | EmptyString => EmptyString
  | String c s' => if is_space c then lstrip s' else s
  end.

(** [s.rstrip()] *)
Fixpoint rstrip (s : string) : string :=
  match s with
  | EmptyString => EmptyString
  | String c s' =>
      match rstrip s' with
      | EmptyString => if is_space c then EmptyString else String c EmptyString
      | r => String c r
      end
  end.

(** [s.strip()] *)
Definition strip (s : string) : string := rstrip (lstrip s).

(** [s.split(sep)] for a one-character separator: never the empty list. *)
Fixpoint split (sep : ascii) (s : string) : list string :=
  match s with
  | EmptyString => [EmptyString]
  | String c s' =>
      if Ascii.eqb c sep then EmptyString :: split sep s'
      else match split sep s' with
           | [] => [String c EmptyString]
           | p :: ps => String c p :: ps
           end
  end.

(** [xs[-1]] on a list that [split] produced. *)
Definition last_part (xs : list string) : string := List.last xs EmptyString.

(** [sep.join(xs)] *)
Fixpoint join (sep : string) (xs : list string) : string :=
  match xs with
  | [] => EmptyString
  | [x] => x
  | x :: rest => x +:+ sep +:+ join sep rest
  end.

End PyStr.

(** ** Python numbers *)

(** What the code does with numbers: integer literals, [+], [round(x, 2)] and
    the comparison that [sorted] uses.  The order is a total preorder (no
    NaN arises from adding weights). *)
Class PyNum (num : Type) := {
  num_of_Z : Z -> num;
  num_add : num -> num -> num;
  num_round2 : num -> num;
  num_leb : num -> num -> bool;
  num_leb_total : forall x y, num_leb x y = true \/ num_leb y x = true;
  num_leb_trans : forall x y z,
      num_leb x y = true -> num_leb y z = true -> num_leb x z = true
}.

(** ** Configuration ([src/config/settings.py]) *)

Record Settings (num : Type) := {
  categories : list string;
  weights : gmap string num;
  trusted_domains : list string;
  search_k : option nat
}.
Arguments categories {num} _.
Arguments weights {num} _.
Arguments trusted_domains {num} _.
Arguments search_k {num} _.

(** ** Risk scorer ([src/utils/risk_calculator.py]) *)

Section RiskCalculator.
Context {num : Type} `{PyNum num}.
Variable settings : Settings num.

(** The domain of an address: [addr.split('@')[-1].lower()]. *)
Definition domain_of (addr : string) : string :=
  PyStr.lower (PyStr.last_part (PyStr.split "@"%char addr)).

(** The loop over [settings.trusted_domains], with its [break]. *)
Fixpoint external_loop (domains : list string) (sender_domain receiver_domain : string) : Z :=
  match domains with
  | [] => 0
  | domain :: rest =>
      if (negb (String.eqb sender_domain domain)
          || negb (String.eqb receiver_domain domain))%bool
      then 1
      else external_loop rest sender_domain receiver_domain
  end.

Definition external_score (sender receiver : string) : Z :=
  external_loop (trusted_domains settings) (domain_of sender) (domain_of receiver).

(** One iteration of the loop over [categories]. *)
Definition add_category (risk_score : num) (cat : string) : num :=
  let cat := PyStr.strip cat in
  match weights settings !! cat with
  | Some category_weight => num_add risk_score category_weight
  | None => risk_score
  end.

Definition category_sum (cats : list string) : num :=
  fold_left add_category cats (num_of_Z 0).

Definition calculate_risk_score (cats : list string) (sender receiver : string) : num :=
  let risk_score := category_sum cats in
  let risk_score := num_add risk_score (num_of_Z (external_score sender receiver)) in
  num_round2 risk_score.

End RiskCalculator.

(** ** Exceptions and effects *)

(** The exceptions the modelled code can meet; all are subclasses of
    Python's [Exception], which is what the [except] clauses catch. *)
Inductive exn :=
| AttributeError
| TypeError
| KeyError
| IndexError
| LibraryError (msg : string).

Inductive outcome (A : Type) :=
| Ok (a : A)
| Raise (e : exn).
Arguments Ok {A} a.
Arguments Raise {A} e.

(** A computation that may consult the outside world [W] (model, index,
    retriever) and may raise. *)
Definition Eff (W A : Type) : Type := W -> outcome A * W.

#[export] Instance eff_ret {W} : MRet (Eff W) := fun A a w => (Ok a, w).

#[export] Instance eff_bind {W} : MBind (Eff W) := fun A B f m w =>
  match m w with
  | (Ok a, w') => f a w'
  | (Raise e, w') => (Raise e, w')
  end.

(** A pure step that may raise. *)
Definition lift {W A} (o : outcome A) : Eff W A := fun w => (o, w).

(** [try: body  except Exception as e: handler] *)
Definition try_except {W A} (body : Eff W A) (handler : exn -> Eff W A) : Eff W A :=
  fun w =>
    match body w with
    | (Ok a, w') => (Ok a, w')
    | (Raise e, w') => handler e w'
    end.

(** ** The built-in [sorted] *)

(** [sorted] is stable; the model is a stable insertion sort.
    [before x y] says that [x], met earlier than [y], stays in front of it. *)
Section StableSort.
Context {A : Type} (before : A -> A -> bool).

Fixpoint insert_stable (x : A) (l : list A) : list A :=
  match l with
  | [] => [x]
  | y :: l' => if before x y then x :: l else y :: insert_stable x l'
  end.

Fixpoint stable_sort (l : list A) : list A :=
  match l with
  | [] => []
  | x :: l' => insert_stable x (stable_sort l')
  end.
End StableSort.

(** [sorted(l, key=key, reverse=True)]: descending, equal keys keep their order. *)
Definition sorted_reverse {A num} `{PyNum num} (key : A -> num) (l : list A) : list A :=
  stable_sort (fun x y => num_leb (key y) (key x)) l.

(** [sorted(l, key=key)] *)
Definition sorted_by {A num} `{PyNum num} (key : A -> num) (l : list A) : list A :=
  stable_sort (fun x y => num_leb (key x) (key y)) l.

(** [sorted(l)] on strings *)
Definition sorted_strings (l : list string) : list string :=
  stable_sort String.leb l.

(** ** The scorer as a call in the running process *)

(** [calculate_risk_score] reads the global [settings] object and assigns
    to nothing outside its locals: the process state is handed back as it
    was found. *)
Definition calculate_risk_score_call {num} `{PyNum num}
    (cats : list string) (sender receiver : string) : Eff (Settings num) num :=
  fun settings => (Ok (calculate_risk_score settings cats sender receiver), settings).

(** ** Documents *)

(** A metadata value as [create_document_from_row] stores it: a string, a
    list of strings, or another value (a missing cell), kept with its
    [str()] rendering. *)
Inductive meta :=
| MStr (s : string)
| MList (l : list string)
| MOther (shown : string).

#[export] Instance meta_eq_dec : EqDecision meta.
Proof. solve_decision. Defined.

Record Document := {
  page_content : string;
  metadata : gmap string meta
}.

#[export] Instance Document_eq_dec : EqDecision Document.
Proof. solve_decision. Defined.

(** ** Example store ([src/vectorstore/vector_db.py]) *)

Section VectorStore.
Context {num : Type} `{PyNum num}.

(** Distance between the embedding of the query and of a stored text. *)
Variable distance : string -> string -> num.

(** The index with its docstore, in insertion order. *)
Definition FAISS := list Document.

(** [FAISS.from_texts(texts, embedding)]: one document per text, no metadata. *)
Definition from_texts (texts : list string) : FAISS :=
  map (fun t => {| page_content := t; metadata := ∅ |}) texts.

(** [vectorstore.add_documents(documents)] *)
Definition faiss_add_documents (vs : FAISS) (documents : list Document) : FAISS :=
  vs ++ documents.

(** [vectorstore.similarity_search(query, k=k)]: the [k] nearest, nearest
    first, fewer when the index holds fewer. *)
Definition faiss_similarity_search (vs : FAISS) (query : string) (k : nat) : list Document :=
  firstn k (sorted_by (fun d => distance query (page_content d)) vs).

(** [VectorStoreManager._load_or_create]; [persisted] is the index found
    under [persist_dir], if that directory exists. *)
Definition _load_or_create (persisted : option FAISS) : FAISS :=
  match persisted with
  | Some vs => vs
  | None => from_texts ["initialization"]
  end.

(** [VectorStoreManager.add_documents] (the index is then saved). *)
Definition add_documents (vectorstore : FAISS) (documents : list Document) : FAISS :=
  faiss_add_documents vectorstore documents.

(** [VectorStoreManager.similarity_search] *)
Definition similarity_search (vectorstore : FAISS) (query : string) (k : nat) : list Document :=
  faiss_similarity_search vectorstore query k.

End VectorStore.

(** ** Retrieval layer ([src/rag/retriever.py]) *)

Section ComplianceRetriever.
Context {num W : Type}.
Variable settings : Settings num.

(** [self.retriever.get_relevant_documents(query)] *)
Variable get_relevant_documents : string -> Eff W (list Document).

(** [self.vectorstore_manager.similarity_search(query, k=...)]; it raises
    when the index cannot be read. *)
Variable store_search : string -> nat -> Eff W (list Document).

Definition get_similar_emails (query : string) (k : option nat) : Eff W (list Document) :=
  let k := match k with
           | None => default 3%nat (search_k settings)
           | Some k => k
           end in
  try_except
    (similar_docs ← get_relevant_documents query;
     mret similar_docs)
    (fun e => mret []).

(** The key under which a document's categories are remembered:
    [tuple(sorted(categories))] for a list, [(str(categories),)] otherwise;
    [doc.metadata.get('Category', [])] is the empty list when absent. *)
Definition category_key (doc : Document) : list string :=
  match metadata doc !! "Category" with
  | None => sorted_strings []
  | Some (MList categories) => sorted_strings categories
  | Some (MStr s) => [s]
  | Some (MOther shown) => [shown]
  end.

(** First pass: one document from each category; the state of the loop is
    [(seen_categories, diverse_docs)], and [break] ends it. *)
Fixpoint first_pass (k : nat) (all_docs : list Document)
    (seen_categories : gset (list string)) (diverse_docs : list Document)
    : gset (list string) * list Document :=
  match all_docs with
  | [] => (seen_categories, diverse_docs)
  | doc :: rest =>
      let category_key := category_key doc in
      if decide (category_key ∈ seen_categories)
      then first_pass k rest seen_categories diverse_docs
      else
        let diverse_docs := diverse_docs ++ [doc] in
        let seen_categories := seen_categories ∪ {[ category_key ]} in
        if (k <=? length diverse_docs)%nat
        then (seen_categories, diverse_docs)
        else first_pass k rest seen_categories diverse_docs
  end.

(** Second pass: fill the remaining slots with the most similar;
    [doc not in diverse_docs] compares documents by value. *)
Fixpoint second_pass (k : nat) (all_docs : list Document) (diverse_docs : list Document)
    : list Document :=
  match all_docs with
  | [] => diverse_docs
  | doc :: rest =>
      if decide (doc ∈ diverse_docs)
      then second_pass k rest diverse_docs
      else
        let diverse_docs := diverse_docs ++ [doc] in
        if (k <=? length diverse_docs)%nat
        then diverse_docs
        else second_pass k rest diverse_docs
  end.

Definition get_diverse_examples (query : string) (k : nat) : Eff W (list Document) :=
  try_except
    (all_docs ← store_search query (k * 2)%nat;
     let '(seen_categories, diverse_docs) := first_pass k all_docs ∅ [] in
     let diverse_docs :=
       if (length diverse_docs <? k)%nat
       then second_pass k all_docs diverse_docs
       else diverse_docs in
     mret diverse_docs)
    (fun e => get_similar_emails query (Some k)).

End ComplianceRetriever.

(** ** Model verdicts *)

(** What [JsonOutputParser] hands back: a parsed JSON value. *)
#[warnings="-register-all"]
Inductive json :=
| JNull
| JBool (b : bool)
| JInt (z : Z)
| JFloat (f : spec_float)
| JStr (s : string)
| JList (l : list json)
| JDict (kv : list (string * json)).

Module Py.

(** Truth value of an object ([not x] is its negation). *)
Definition truthy (j : json) : bool :=
  match j with
  | JNull => false
  | JBool b => b
  | JInt z => negb (z =? 0)
  | JFloat (S754_zero _) => false
  | JFloat _ => true
  | JStr s => negb (String.eqb s "")
  | JList l => match l with [] => false | _ => true end
  | JDict kv => match kv with [] => false | _ => true end
  end.

(** [x == s] for a string literal [s]. *)
Definition eq_str (j : json) (s : string) : bool :=
  match j with
  | JStr s' => String.eqb s' s
  | _ => false
  end.

Fixpoint lookup (kv : list (string * json)) (key : string) : option json :=
  match kv with
  | [] => None
  | (k, v) :: kv' => if String.eqb k key then Some v else lookup kv' key
  end.

(** [result.get(key, dflt)]: only a dict has [get]. *)
Definition get (result : json) (key : string) (dflt : json) : outcome json :=
  match result with
  | JDict kv => Ok (default dflt (lookup kv key))
  | _ => Raise AttributeError
  end.

(** The items of [sep.join(items)] must all be strings. *)
Fixpoint strings_of (items : list json) : outcome (list string) :=
  match items with
  | [] => Ok []
  | JStr s :: rest =>
      match strings_of rest with
      | Ok ss => Ok (s :: ss)
      | Raise e => Raise e
      end
  | _ :: _ => Raise TypeError
  end.

(** [sep.join(items)] *)
Definition join (sep : string) (items : list json) : outcome string :=
  match strings_of items with
  | Ok ss => Ok (PyStr.join sep ss)
  | Raise e => Raise e
  end.

(** [x.split(sep)]: only a string has [split]; the string is handed back
    with its parts. *)
Definition split (j : json) (sep : ascii) : outcome (string * list string) :=
  match j with
  | JStr s => Ok (s, PyStr.split sep s)
  | _ => Raise AttributeError
  end.

(** [x[0]] *)
Definition item0 (j : json) : outcome json :=
  match j with
  | JList (x :: _) => Ok x
  | JList [] => Raise IndexError
  | JStr (String c _) => Ok (JStr (String c EmptyString))
  | JStr EmptyString => Raise IndexError
  | JDict _ => Raise KeyError
  | _ => Raise TypeError
  end.

End Py.

(** ** Classification engine ([src/rag/classifier.py]) *)

(** One row of the uploaded table whose four cells are strings.  (An empty
    cell is not a string once the table is parsed: such a row is not of this
    type.) *)
Record Row := {
  row_From : string;
  row_To : string;
  row_Subject : string;
  row_Body : string
}.

(** The dictionary handed to the chain. *)
Record PromptInput := {
  prompt_From : string;
  prompt_To : string;
  prompt_Subject : string;
  prompt_Body : string;
  potential_categories : string;
  examples : string
}.

(** The dictionary [classify_email] returns; [idx] is set by [classify_batch]. *)
Record Result (num : Type) := {
  Classification : string;
  Category : string;
  Risk_Score : num;
  res_From : string;
  res_To : string;
  res_Subject : string;
  res_Body : string;
  Reason : json;
  Evidence : json;
  Confidence_Score : json;
  idx : option nat
}.
Arguments Classification {num} _.
Arguments Category {num} _.
Arguments Risk_Score {num} _.
Arguments res_From {num} _.
Arguments res_To {num} _.
Arguments res_Subject {num} _.
Arguments res_Body {num} _.
Arguments Reason {num} _.
Arguments Evidence {num} _.
Arguments Confidence_Score {num} _.
Arguments idx {num} _.

(** [result['idx'] = idx] *)
Definition set_idx {num} (i : nat) (r : Result num) : Result num :=
  {| Classification := Classification r; Category := Category r;
     Risk_Score := Risk_Score r; res_From := res_From r; res_To := res_To r;
     res_Subject := res_Subject r; res_Body := res_Body r; Reason := Reason r;
     Evidence := Evidence r; Confidence_Score := Confidence_Score r;
     idx := Some i |}.

Definition newline : string := String (ascii_of_nat 10) EmptyString.

Section EmailClassifier.
Context {num W : Type} `{PyNum num}.
Variable settings : Settings num.

(** [self.retriever.get_relevant_documents] *)
Variable get_relevant_documents : string -> Eff W (list Document).

(** [(self.prompt | self.llm | self.parser).invoke]: the model's answer,
    parsed, or the exception of the model call or of the parser. *)
Variable chain_invoke : PromptInput -> Eff W json.

(** [str()] of a metadata value inside an f-string. *)
Variable py_str : meta -> string.

Definition _format_examples (similar_docs : list Document) : string :=
  let examples :=
    map (fun doc =>
           let category := default (MList ["Unknown"]) (metadata doc !! "Category") in
           "Category: " +:+ py_str category +:+ newline +:+
           "Body: " +:+ PyStr.strip (page_content doc) +:+ newline)
        similar_docs in
  PyStr.join newline examples.

(** The parse of the category field: the placeholder and empty values
    first, then lists. *)
Definition normalize_category (category : json) : outcome json :=
  let category :=
    if (Py.eq_str category "nan" || negb (Py.truthy category))%bool
    then JStr "Compliant" else category in
  match category with
  | JList items =>
      match Py.join ", " items with
      | Ok s => Ok (JStr s)
      | Raise e => Raise e
      end
  | _ => Ok category
  end.

(** The entry ["Evidence"] of the returned dictionary. *)
Definition evidence_of (result : json) : outcome json :=
  match Py.get result "evidence" JNull with
  | Ok field =>
      if Py.truthy field
      then match Py.get result "evidence" (JList [JStr ""]) with
           | Ok e => Py.item0 e
           | Raise e => Raise e
           end
      else Ok (JStr "")
  | Raise e => Raise e
  end.

Definition classify_email (row : Row) : Eff W (Result num) :=
  similar_docs ← get_relevant_documents (row_Body row);
  let examples_str := _format_examples similar_docs in
  let prompt_input :=
    {| prompt_From := row_From row;
       prompt_To := row_To row;
       prompt_Subject := row_Subject row;
       prompt_Body := row_Body row;
       potential_categories :=
         PyStr.join newline (map (fun cat => "- " +:+ cat) (categories settings));
       examples := examples_str |} in
  result ← chain_invoke prompt_input;
  category ← lift (Py.get result "Category" (JStr "Compliant"));
  category ← lift (normalize_category category);
  non_compliant ← lift (Py.get result "non_compliant" JNull);
  let classification :=
    if Py.eq_str non_compliant "Yes" then "Non-Compliant" else "Compliant" in
  '(category, parts) ← lift (Py.split category ","%char);
  let category_list := map PyStr.strip parts in
  let risk_score :=
    calculate_risk_score settings category_list (row_From row) (row_To row) in
  reason ← lift (Py.get result "reason" (JStr ""));
  evidence ← lift (evidence_of result);
  confidence ← lift (Py.get result "confidence_score" (JStr ""));
  mret {| Classification := classification;
          Category := category;
          Risk_Score := risk_score;
          res_From := row_From row;
          res_To := row_To row;
          res_Subject := row_Subject row;
          res_Body := row_Body row;
          Reason := reason;
          Evidence := evidence;
          Confidence_Score := confidence;
          idx := None |}.

(** The loop of [classify_batch] over [test_df.iterrows()], from index [i]. *)
Fixpoint batch_loop (i : nat) (rows : list Row) (results : list (Result num))
    : Eff W (list (Result num)) :=
  match rows with
  | [] => mret results
  | row :: rest =>
      results ← try_except
                  (result ← classify_email row;
                   let result := set_idx i result in
                   mret (results ++ [result]))
                  (fun e => mret results);
      batch_loop (S i) rest results
  end.

Definition is_non_compliant (r : Result num) : bool :=
  String.eqb (Classification r) "Non-Compliant".

Definition classify_batch (test_df : list Row) : Eff W (list (Result num)) :=
  results ← batch_loop 0 test_df [];
  let non_compliant := filter (fun r => is_non_compliant r) results in
  let sorted_results := sorted_reverse Risk_Score non_compliant in
  mret sorted_results.

End EmailClassifier.

(** ** Substrings *)

Module PyText.

(** [needle in hay] on strings. *)
Fixpoint contains (needle hay : string) : bool :=
  if String.prefix needle hay then true
  else match hay with
       | EmptyString => false
       | String _ hay' => contains needle hay'
       end.

End PyText.

(** ** Filtered searches ([src/rag/retriever.py]) *)

(** A list comprehension whose condition may raise: the first exception
    ends it. *)
Fixpoint filter_raising {A} (cond : A -> outcome bool) (l : list A) : outcome (list A) :=
  match l with
  | [] => Ok []
  | x :: rest =>
      match cond x with
      | Raise e => Raise e
      | Ok b =>
          match filter_raising cond rest with
          | Raise e => Raise e
          | Ok kept => Ok (if b then x :: kept else kept)
          end
      end
  end.

(** [category in doc.metadata.get('Category', [])]: membership in a list,
    substring of a string; any other value is not iterable. *)
Definition category_in (category : string) (doc : Document) : outcome bool :=
  match metadata doc !! "Category" with
  | None => Ok false
  | Some (MList categories) => Ok (bool_decide (category ∈ categories))
  | Some (MStr s) => Ok (PyText.contains category s)
  | Some (MOther _) => Raise TypeError
  end.

(** [doc.metadata.get('Classification', '').lower() == classification.lower()] *)
Definition classification_is (classification : string) (doc : Document) : outcome bool :=
  match metadata doc !! "Classification" with
  | None => Ok (String.eqb (PyStr.lower "") (PyStr.lower classification))
  | Some (MStr s) => Ok (String.eqb (PyStr.lower s) (PyStr.lower classification))
  | Some _ => Raise AttributeError
  end.

(** [domain in doc.metadata.get('From', '').lower()] *)
Definition sender_contains (domain : string) (doc : Document) : outcome bool :=
  match metadata doc !! "From" with
  | None => Ok (PyText.contains domain (PyStr.lower ""))
  | Some (MStr s) => Ok (PyText.contains domain (PyStr.lower s))
  | Some _ => Raise AttributeError
  end.

Section RetrieverFilters.
Context {W : Type}.

(** [self.vectorstore_manager.similarity_search(query, k=...)] *)
Variable store_search : string -> nat -> Eff W (list Document).

Definition get_similar_by_category (query category : string) (k : nat)
    : Eff W (list Document) :=
  try_except
    (all_docs ← store_search query (k * 3)%nat;
     filtered_docs ← lift (filter_raising (category_in category) all_docs);
     mret (take k filtered_docs))
    (fun e => mret []).

Definition get_similar_by_classification (query classification : string) (k : nat)
    : Eff W (list Document) :=
  try_except
    (all_docs ← store_search query (k * 3)%nat;
     filtered_docs ← lift (filter_raising (classification_is classification) all_docs);
     mret (take k filtered_docs))
    (fun e => mret []).

Definition search_by_sender_domain (query domain : string) (k : nat)
    : Eff W (list Document) :=
  try_except
    (all_docs ← store_search query (k * 3)%nat;
     filtered_docs ← lift (filter_raising (sender_contains domain) all_docs);
     mret (take k filtered_docs))
    (fun e => mret []).

End RetrieverFilters.

(** ** Prompt examples and retrieval context ([src/rag/retriever.py]) *)

(** What [get_context_for_email] returns. *)
Record RetrievalContext := {
  similar_documents : list Document;
  formatted_examples : string;
  num_examples : nat;
  category_distribution : gmap string nat
}.

Section RetrieverContext.
Context {num W : Type}.
Variable settings : Settings num.
Variable get_relevant_documents : string -> Eff W (list Document).
Variable store_search : string -> nat -> Eff W (list Document).

(** [str()] of a list, as Python prints it. *)
Variable py_repr_list : list string -> string.

(** [str(x)] of a metadata value. *)
Definition str_of (m : meta) : string :=
  match m with
  | MStr s => s
  | MList l => py_repr_list l
  | MOther shown => shown
  end.

Definition no_examples_found : string :=
  "No similar examples found. Classify based on general compliance knowledge.".

(** The body of the loop over [enumerate(documents, 1)]. *)
Definition format_example (i : nat) (doc : Document) : string :=
  let category := default (MList ["Unknown"]) (metadata doc !! "Category") in
  let classification := default (MStr "Unknown") (metadata doc !! "Classification") in
  let category_str :=
    match category with
    | MList l => PyStr.join ", " l
    | _ => str_of category
    end in
  "Example " +:+ pretty i +:+ ":" +:+ newline +:+
  "Classification: " +:+ str_of classification +:+ newline +:+
  "Category: " +:+ category_str +:+ newline +:+
  "Body: " +:+ PyStr.strip (page_content doc) +:+ newline.

Fixpoint format_loop (i : nat) (documents : list Document) : list string :=
  match documents with
  | [] => []
  | doc :: rest => format_example i doc :: format_loop (S i) rest
  end.

Definition format_examples_for_prompt (documents : list Document) : string :=
  match documents with
  | [] => no_examples_found
  | _ => PyStr.join newline (format_loop 1 documents)
  end.

(** [d[key] = d.get(key, 0) + 1] *)
Definition count_one (distribution : gmap string nat) (key : string) : gmap string nat :=
  <[ key := (default 0%nat (distribution !! key) + 1)%nat ]> distribution.

(** One iteration of the loop that tallies the categories. *)
Definition count_categories (distribution : gmap string nat) (doc : Document)
    : gmap string nat :=
  match default (MList []) (metadata doc !! "Category") with
  | MList cats => fold_left count_one cats distribution
  | categories => count_one distribution (str_of categories)
  end.

Definition get_context_for_email (subject body : string) (use_diverse : bool)
    : Eff W RetrievalContext :=
  let query := subject +:+ " " +:+ body in
  similar_docs ←
    (if use_diverse
     then get_diverse_examples settings get_relevant_documents store_search query
            (default 3%nat (search_k settings))
     else get_similar_emails settings get_relevant_documents query None);
  let formatted_examples := format_examples_for_prompt similar_docs in
  let category_distribution := fold_left count_categories similar_docs ∅ in
  mret {| similar_documents := similar_docs;
          formatted_examples := formatted_examples;
          num_examples := length similar_docs;
          category_distribution := category_distribution |}.

End RetrieverContext.

(** ** Rows of an uploaded table ([src/models/llm_models.py],
       [src/rag/classifier.py]) *)

(** A cell of a row that [df.iterrows()] yields: a string, [None], the
    missing-value [nan], or another scalar kept with its [str()]. *)
Inductive cell :=
| CStr (s : string)
| CNone
| CNaN
| COther (shown : string).

(** The cell as a metadata value. *)
Definition meta_of_cell (c : cell) : meta :=
  match c with
  | CStr s => MStr s
  | CNone => MOther "None"
  | CNaN => MOther "nan"
  | COther shown => MOther shown
  end.

(** [c == s] for a string literal [s]. *)
Definition cell_eq_str (c : cell) (s : string) : bool :=
  match c with
  | CStr s' => String.eqb s' s
  | _ => false
  end.

(** [c is None] *)
Definition cell_is_none (c : cell) : bool :=
  match c with
  | CNone => true
  | _ => false
  end.

(** [row[key]]: a missing column is a [KeyError]. *)
Definition row_item (row : gmap string cell) (key : string) : outcome cell :=
  match row !! key with
  | Some c => Ok c
  | None => Raise KeyError
  end.

#[export] Instance outcome_ret : MRet outcome := fun A a => Ok a.

#[export] Instance outcome_bind : MBind outcome := fun A B f m =>
  match m with
  | Ok a => f a
  | Raise e => Raise e
  end.

Section Ingestion.

(** [Document(page_content=...)] checks its text: what it stores for a
    cell, or the validation error. *)
Variable page_content_of : cell -> outcome string.

Definition create_document_from_row (row : gmap string cell) (action : string)
    : outcome Document :=
  let classification := default (CStr "Compliant") (row !! "Classification") in
  let category := default (CStr "Compliant") (row !! "Category") in
  let category :=
    if (cell_eq_str classification "Compliant" || cell_is_none category
        || cell_eq_str category "")%bool
    then CStr "Compliant" else category in
  body ← row_item row "Body";
  sender ← row_item row "From";
  receiver ← row_item row "To";
  subject ← row_item row "Subject";
  text ← page_content_of body;
  mret {| page_content := text;
          metadata :=
            {[ "From" := meta_of_cell sender;
               "To" := meta_of_cell receiver;
               "Subject" := meta_of_cell subject;
               "Category" := match category with
                             | CStr s => MList [s]
                             | _ => meta_of_cell category
                             end;
               "Classification" := meta_of_cell classification ]} |}.

(** The loop [for _, row in df.iterrows(): documents.append(...)]. *)
Fixpoint create_documents (rows : list (gmap string cell)) (action : string)
    : outcome (list Document) :=
  match rows with
  | [] => Ok []
  | row :: rest =>
      doc ← create_document_from_row row action;
      documents ← create_documents rest action;
      mret (doc :: documents)
  end.

(** The manager of the store: the index in memory and what [save] wrote
    under [persist_dir]. *)
Record StoreManager := {
  vectorstore : FAISS;
  persisted : option FAISS
}.

(** [VectorStoreManager()] *)
Definition new_manager (on_disk : option FAISS) : StoreManager :=
  {| vectorstore := _load_or_create on_disk; persisted := on_disk |}.

(** [VectorStoreManager.add_documents]: add to the index, then [save].
    This is the run in which the index takes the documents and the save
    reaches the disk; a run in which the library raises (on an empty list
    of documents, or when the disk cannot be written) is not described. *)
Definition manager_add_documents (documents : list Document) : Eff StoreManager unit :=
  fun self =>
    let vs := add_documents (vectorstore self) documents in
    (Ok tt, {| vectorstore := vs; persisted := Some vs |}).

(** [EmailClassifier.load_sample_data], from the parsed table on. *)
Definition load_sample_data (df : list (gmap string cell)) : Eff StoreManager unit :=
  documents ← lift (create_documents df "training");
  manager_add_documents documents.

(** [EmailClassifier.add_classified_emails] *)
Definition add_classified_emails (df : list (gmap string cell)) : Eff StoreManager unit :=
  documents ← lift (create_documents df "classified");
  manager_add_documents documents.

End Ingestion.

(** ** Shared resources ([src/utils/shared_resources.py]) *)

(** The class attributes of [SharedResources]. *)
Record Shared (num Llm Manager Retriever : Type) := {
  cls_initialized : bool;
  cls_llm : option Llm;
  cls_vectorstore_manager : option Manager;
  cls_retriever : option Retriever;
  cls_categories : option (list string);
  cls_weights : option (gmap string num)
}.
Arguments cls_initialized {num Llm Manager Retriever} _.
Arguments cls_llm {num Llm Manager Retriever} _.
Arguments cls_vectorstore_manager {num Llm Manager Retriever} _.
Arguments cls_retriever {num Llm Manager Retriever} _.
Arguments cls_categories {num Llm Manager Retriever} _.
Arguments cls_weights {num Llm Manager Retriever} _.

(** The class methods a client can call, and what they hand back. *)
Inductive request :=
| Initialize
| GetLlm
| GetVectorstoreManager
| GetRetriever
| GetCategories
| GetWeights.

Inductive answer (num Llm Manager Retriever : Type) :=
| NoValue
| AnLlm (llm : option Llm)
| AManager (m : option Manager)
| ARetriever (r : option Retriever)
| SomeCategories (c : option (list string))
| SomeWeights (ws : option (gmap string num)).
Arguments NoValue {num Llm Manager Retriever}.
Arguments AnLlm {num Llm Manager Retriever} _.
Arguments AManager {num Llm Manager Retriever} _.
Arguments ARetriever {num Llm Manager Retriever} _.
Arguments SomeCategories {num Llm Manager Retriever} _.
Arguments SomeWeights {num Llm Manager Retriever} _.

Section SharedResources.
Context {num W Llm Manager Retriever : Type}.
Variable settings : Settings num.

(** [get_llm()], [VectorStoreManager()] and [manager.get_retriever()]. *)
Variable make_llm : Eff W Llm.
Variable make_manager : Eff W Manager.
Variable make_retriever : Manager -> Eff W Retriever.

Local Abbreviation State := (Shared num Llm Manager Retriever).

(** A call to a collaborator from a class method. *)
Definition outside {A} (m : Eff W A) : Eff (State * W) A :=
  fun '(cls, w) => let '(o, w') := m w in (o, (cls, w')).

(** An assignment to class attributes. *)
Definition assign (f : State -> State) : Eff (State * W) unit :=
  fun '(cls, w) => (Ok tt, (f cls, w)).

(** Reading a class attribute. *)
Definition read {A} (f : State -> A) : Eff (State * W) A :=
  fun '(cls, w) => (Ok (f cls), (cls, w)).

(** The assignments [cls.llm = v], [cls.vectorstore_manager = v], ... *)
Definition set_llm (v : Llm) : Eff (State * W) unit :=
  assign (fun cls =>
    {| cls_initialized := cls_initialized cls; cls_llm := Some v;
       cls_vectorstore_manager := cls_vectorstore_manager cls;
       cls_retriever := cls_retriever cls;
       cls_categories := cls_categories cls; cls_weights := cls_weights cls |}).

Definition set_vectorstore_manager (v : Manager) : Eff (State * W) unit :=
  assign (fun cls =>
    {| cls_initialized := cls_initialized cls; cls_llm := cls_llm cls;
       cls_vectorstore_manager := Some v;
       cls_retriever := cls_retriever cls;
       cls_categories := cls_categories cls; cls_weights := cls_weights cls |}).

Definition set_retriever (v : Retriever) : Eff (State * W) unit :=
  assign (fun cls =>
    {| cls_initialized := cls_initialized cls; cls_llm := cls_llm cls;
       cls_vectorstore_manager := cls_vectorstore_manager cls;
       cls_retriever := Some v;
       cls_categories := cls_categories cls; cls_weights := cls_weights cls |}).

Definition set_categories (v : list string) : Eff (State * W) unit :=
  assign (fun cls =>
    {| cls_initialized := cls_initialized cls; cls_llm := cls_llm cls;
       cls_vectorstore_manager := cls_vectorstore_manager cls;
       cls_retriever := cls_retriever cls;
       cls_categories := Some v; cls_weights := cls_weights cls |}).

Definition set_weights (v : gmap string num) : Eff (State * W) unit :=
  assign (fun cls =>
    {| cls_initialized := cls_initialized cls; cls_llm := cls_llm cls;
       cls_vectorstore_manager := cls_vectorstore_manager cls;
       cls_retriever := cls_retriever cls;
       cls_categories := cls_categories cls; cls_weights := Some v |}).

Definition set_initialized (v : bool) : Eff (State * W) unit :=
  assign (fun cls =>
    {| cls_initialized := v; cls_llm := cls_llm cls;
       cls_vectorstore_manager := cls_vectorstore_manager cls;
       cls_retriever := cls_retriever cls;
       cls_categories := cls_categories cls; cls_weights := cls_weights cls |}).

Definition initialize : Eff (State * W) unit :=
  initialized ← read cls_initialized;
  if initialized : bool then (mret tt : Eff (State * W) unit)
  else
    llm ← outside make_llm;
    set_llm llm;;
    manager ← outside make_manager;
    set_vectorstore_manager manager;;
    retriever ← outside (make_retriever manager);
    set_retriever retriever;;
    set_categories (categories settings);;
    set_weights (weights settings);;
    set_initialized true.

Definition initialize_if_needed : Eff (State * W) unit :=
  initialized ← read cls_initialized;
  if negb initialized then initialize else (mret tt : Eff (State * W) unit).

Definition get_llm : Eff (State * W) (option Llm) :=
  initialize_if_needed;; read cls_llm.

Definition get_vectorstore_manager : Eff (State * W) (option Manager) :=
  initialize_if_needed;; read cls_vectorstore_manager.

Definition get_retriever : Eff (State * W) (option Retriever) :=
  initialize_if_needed;; read cls_retriever.

Definition get_categories : Eff (State * W) (option (list string)) :=
  initialize_if_needed;; read cls_categories.

Definition get_weights : Eff (State * W) (option (gmap string num)) :=
  initialize_if_needed;; read cls_weights.

Definition reload_vectorstore : Eff (State * W) unit :=
  manager ← outside make_manager;
  set_vectorstore_manager manager;;
  retriever ← outside (make_retriever manager);
  set_retriever retriever.

(** A client's call of a class method. *)
Definition call (r : request) : Eff (State * W) (answer num Llm Manager Retriever) :=
  match r with
  | Initialize => initialize;; mret NoValue
  | GetLlm => v ← get_llm; mret (AnLlm v)
  | GetVectorstoreManager => v ← get_vectorstore_manager; mret (AManager v)
  | GetRetriever => v ← get_retriever; mret (ARetriever v)
  | GetCategories => v ← get_categories; mret (SomeCategories v)
  | GetWeights => v ← get_weights; mret (SomeWeights v)
  end.

(** A client's calls, one after the other; the first exception ends the
    run. *)
Fixpoint calls (rs : list request) : Eff (State * W) (list (answer num Llm Manager Retriever)) :=
  match rs with
  | [] => mret []
  | r :: rest => a ← call r; more ← calls rest; mret (a :: more)
  end.

End SharedResources.

(** * Specification-side definitions and sample data

    What the properties below are stated with: the selections and values as
    the specification words them, the trace of a batch, and the concrete
    rubrics, documents and batches the statements are evaluated on. *)

(** Whole numbers: [round(n, 2)] of an [int] is that [int]. *)
#[export] Program Instance PyNum_Z : PyNum Z := {|
  num_of_Z := fun z => z;
  num_add := Z.add;
  num_round2 := fun z => z;
  num_leb := Z.leb
|}.
Next Obligation. intros x y. rewrite !Z.leb_le. lia. Qed.
Next Obligation. intros x y z. rewrite !Z.leb_le. lia. Qed.

(** The flag as the specification words it: 1 when every trusted domain
    differs from the sender's or the receiver's domain, else 0. *)
Definition spec_external_flag (trusted : list string) (sender receiver : string) : Z :=
  if forallb (fun d => negb (String.eqb (domain_of sender) d)
                       || negb (String.eqb (domain_of receiver) d))%bool trusted
  then 1 else 0.

(** The rubric of the specification's example (weight of Secrecy 10), for a
    given list of trusted domains. *)
Definition rubric (trusted : list string) : Settings Z :=
  {| categories := ["Secrecy"];
     weights := {[ "Secrecy" := 10 ]};
     trusted_domains := trusted;
     search_k := None |}.

(** The configured weights of the categories that are in the table, in the
    order of the input list. *)
Definition known_weights {num} (settings : Settings num) (cats : list string) : list num :=
  omap (fun cat => weights settings !! PyStr.strip cat) cats.

(** Two keys that the order cannot tell apart. *)
Definition same_key {num} `{PyNum num} (a b : num) : Prop :=
  num_leb a b = true /\ num_leb b a = true.

#[export] Instance same_key_dec {num} `{PyNum num} (a b : num) : Decision (same_key a b).
Proof. unfold same_key. apply _. Defined.

(** The document [FAISS.from_texts(["initialization"], ...)] puts in the index. *)
Definition placeholder : Document :=
  {| page_content := "initialization"; metadata := ∅ |}.

(** A retriever whose index cannot be read. *)
Definition unreadable_index : string -> Eff unit (list Document) :=
  fun _ w => (Raise (LibraryError "index cannot be read"), w).

(** The first pass in terms of the code's category key: a candidate stands
    for its category when no earlier candidate carries the same key. *)
Fixpoint category_representatives (earlier docs : list Document) : list Document :=
  match docs with
  | [] => []
  | d :: rest =>
      if decide (category_key d ∈ category_key <$> earlier)
      then category_representatives (earlier ++ [d]) rest
      else d :: category_representatives (earlier ++ [d]) rest
  end.

(** The distinct documents of a ranked list, each at its first rank. *)
Fixpoint first_occurrences (earlier docs : list Document) : list Document :=
  match docs with
  | [] => []
  | d :: rest =>
      if decide (d ∈ earlier)
      then first_occurrences (earlier ++ [d]) rest
      else d :: first_occurrences (earlier ++ [d]) rest
  end.

(** The candidates that are not among the selected documents, in rank order. *)
Definition unused_candidates (selected docs : list Document) : list Document :=
  filter (fun d => d ∉ selected) (first_occurrences [] docs).

(** The two passes together. *)
Definition spec_diverse_examples (k : nat) (candidates : list Document) : list Document :=
  let pass1 := take k (category_representatives [] candidates) in
  pass1 ++ take (k - length pass1) (unused_candidates pass1 candidates).





(** A stored example with one category. *)
Definition example_doc (body category : string) : Document :=
  {| page_content := body; metadata := {[ "Category" := MList [category] ]} |}.

(** The candidates of the specification's example, in rank order. *)
Definition ranked_AABC : list Document :=
  [example_doc "first" "A"; example_doc "second" "A";
   example_doc "third" "B"; example_doc "fourth" "C"].



(** ** A batch of five emails *)

(** An internal email with the given body. *)
Definition mail (body : string) : Row :=
  {| row_From := "a@x.com"; row_To := "b@x.com";
     row_Subject := "status"; row_Body := body |}.

(** Five emails, told apart by their bodies. *)
Definition batch5 : list Row :=
  [mail "m1"; mail "m2"; mail "m3"; mail "m4"; mail "m5"].

(** Four categories with the weights 1, 3, 7 and 9. *)
Definition rubric_1379 : Settings Z :=
  {| categories := ["One"; "Three"; "Seven"; "Nine"];
     weights := {[ "One" := 1; "Three" := 3; "Seven" := 7; "Nine" := 9 ]};
     trusted_domains := ["x.com"];
     search_k := None |}.

(** A retriever that finds nothing. *)
Definition no_examples : string -> Eff unit (list Document) :=
  fun _ w => (Ok [], w).

(** A chain that answers by the body of the email. *)
Definition scripted_chain (answers : list (string * outcome json))
    : PromptInput -> Eff unit json :=
  fun p w =>
    (default (Raise (LibraryError "no answer"))
       (snd <$> find (fun a => String.eqb (fst a) (prompt_Body p)) answers), w).

(** A well-formed answer of the model. *)
Definition verdict (non_compliant : json) (category : json) : outcome json :=
  Ok (JDict [("non_compliant", non_compliant); ("Category", category);
             ("reason", JStr "shares figures before release");
             ("evidence", JList [JStr "keep this between us"]);
             ("confidence_score", JStr "4")]).

(** A rendering of metadata values for the prompt. *)
Definition shown (m : meta) : string :=
  match m with
  | MStr s => s
  | MList l => PyStr.join ", " l
  | MOther s => s
  end.

(** [classify_batch] on the five emails with scripted answers. *)
Definition run_batch (answers : list (string * outcome json)) :=
  classify_batch rubric_1379 no_examples (scripted_chain answers) shown batch5 tt.

(** Index and risk score of each returned result. *)
Definition summary (run : outcome (list (Result Z)) * unit) : list (option nat * Z) :=
  match run.1 with
  | Ok out => map (fun r => (idx r, Risk_Score r)) out
  | Raise _ => []
  end.

(** Scores 3, 9, 9, 1, 7; the third email is judged compliant. *)
Definition answers_third_compliant : list (string * outcome json) :=
  [("m1", verdict (JStr "Yes") (JStr "Three"));
   ("m2", verdict (JStr "Yes") (JStr "Nine"));
   ("m3", verdict (JStr "No") (JStr "Nine"));
   ("m4", verdict (JStr "Yes") (JStr "One"));
   ("m5", verdict (JStr "Yes") (JStr "Seven"))].

(** The same scores, all five non-compliant: the two 9s tie. *)
Definition answers_all_violations : list (string * outcome json) :=
  [("m1", verdict (JStr "Yes") (JStr "Three"));
   ("m2", verdict (JStr "Yes") (JStr "Nine"));
   ("m3", verdict (JStr "Yes") (JList [JStr "Nine"]));
   ("m4", verdict (JStr "Yes") (JStr "One"));
   ("m5", verdict (JStr "Yes") (JStr "Seven"))].

(** The answer to the third email cannot be parsed. *)
Definition answers_third_malformed : list (string * outcome json) :=
  [("m1", verdict (JStr "Yes") (JStr "Three"));
   ("m2", verdict (JStr "Yes") (JStr "Nine"));
   ("m3", Raise (LibraryError "OutputParserException: invalid json output"));
   ("m4", verdict (JStr "Yes") (JStr "One"));
   ("m5", verdict (JStr "Yes") (JStr "Seven"))].

(** The third answer says "yes" in lower case. *)
Definition answers_third_lowercase : list (string * outcome json) :=
  [("m1", verdict (JStr "Yes") (JStr "Three"));
   ("m2", verdict (JBool true) (JStr "Nine"));
   ("m3", verdict (JStr "yes") (JStr "Nine"));
   ("m4", verdict (JStr "Yes") (JStr "One"));
   ("m5", verdict (JStr "Yes") (JStr "Seven"))].

(** The fields of an answer that names two categories in a list. *)
Definition two_category_fields : list (string * json) :=
  [("non_compliant", JStr "Yes"); ("Category", JList [JStr "Nine"; JStr "One"]);
   ("reason", JStr "shares figures before release");
   ("evidence", JList [JStr "keep this between us"]);
   ("confidence_score", JStr "4")].

(** ** The run of a batch, email by email *)

Section BatchRun.
Context {num W : Type} `{PyNum num}.
Variable settings : Settings num.
Variable get_relevant_documents : string -> Eff W (list Document).
Variable chain_invoke : PromptInput -> Eff W json.
Variable py_str : meta -> string.

(** The dictionary [classify_email] hands to the chain for a row and the
    documents retrieved for it. *)
Definition prompt_of (row : Row) (similar_docs : list Document) : PromptInput :=
  {| prompt_From := row_From row;
     prompt_To := row_To row;
     prompt_Subject := row_Subject row;
     prompt_Body := row_Body row;
     potential_categories :=
       PyStr.join newline (map (fun cat => "- " +:+ cat) (categories settings));
     examples := _format_examples py_str similar_docs |}.

(** The line that sets [classification]. *)
Definition classification_of (non_compliant : json) : string :=
  if Py.eq_str non_compliant "Yes" then "Non-Compliant" else "Compliant".

(** One email of the batch as the loop met it. *)
Record Attempt := {
  at_index : nat;
  at_row : Row;
  world_before : W;
  attempt_outcome : outcome (Result num)
}.

(** The attempts of a batch in input order, the outside world handed from
    one email to the next. *)
Fixpoint email_attempts (i : nat) (rows : list Row) (w : W) : list Attempt :=
  match rows with
  | [] => []
  | row :: rest =>
      let run := classify_email settings get_relevant_documents chain_invoke py_str row w in
      {| at_index := i; at_row := row; world_before := w; attempt_outcome := run.1 |}
      :: email_attempts (S i) rest run.2
  end.

Fixpoint final_world (rows : list Row) (w : W) : W :=
  match rows with
  | [] => w
  | row :: rest =>
      final_world rest
        (classify_email settings get_relevant_documents chain_invoke py_str row w).2
  end.

(** What an attempt leaves in [results]. *)
Definition kept (a : Attempt) : option (Result num) :=
  match attempt_outcome a with
  | Ok r => Some (set_idx (at_index a) r)
  | Raise _ => None
  end.

Definition email_results (i : nat) (rows : list Row) (w : W) : list (Result num) :=
  omap kept (email_attempts i rows w).

End BatchRun.

(** ** Further specification-side definitions *)

(** The characters [str.lower] changes. *)
Definition is_upper (c : ascii) : bool :=
  let n := PyStr.code c in
  (PyStr.between 65 90 n || PyStr.between 192 214 n || PyStr.between 216 222 n)%bool.

(** A string with a character that [str.lower] changes. *)
Fixpoint has_upper (s : string) : bool :=
  match s with
  | EmptyString => false
  | String c s' => (is_upper c || has_upper s')%bool
  end.

(** A string that holds the character [sep]. *)
Fixpoint has_char (sep : ascii) (s : string) : bool :=
  match s with
  | EmptyString => false
  | String c s' => (Ascii.eqb c sep || has_char sep s')%bool
  end.

(** What the three filtered searches have in common: over-fetch [3k],
    filter, keep the first [k]; any exception gives the empty list. *)
Definition filtered_search {W} (store_search : string -> nat -> Eff W (list Document))
    (cond : Document -> outcome bool) (query : string) (k : nat)
    : Eff W (list Document) :=
  try_except
    (all_docs ← store_search query (k * 3)%nat;
     filtered_docs ← lift (filter_raising cond all_docs);
     mret (take k filtered_docs))
    (fun e => mret []).

(** The labels under which a document is tallied. *)
Definition category_labels (py_repr_list : list string -> string) (doc : Document)
    : list string :=
  match default (MList []) (metadata doc !! "Category") with
  | MList cats => cats
  | categories => [str_of py_repr_list categories]
  end.

(** How often a label occurs. *)
Definition occurrences (label : string) (labels : list string) : nat :=
  length (filter (fun l => l = label) labels).

(** A category field from which [classify_email] gets a string: a string,
    a list of strings, or an empty value. *)
Definition category_readable (field : json) : Prop :=
  match field with
  | JStr _ => True
  | JList items => Forall (fun item => exists s, item = JStr s) items
  | other => Py.truthy other = false
  end.

(** An evidence field that [classify_email] can read: a list, a string, or
    an empty value. *)
Definition evidence_readable (field : json) : Prop :=
  match field with
  | JList _ | JStr _ => True
  | other => Py.truthy other = false
  end.

(** What ends up under ["Evidence"]. *)
Definition evidence_value (field : json) : json :=
  match field with
  | JList (first :: _) => first
  | JStr (String c _) => JStr (String c EmptyString)
  | _ => JStr ""
  end.

(** The classification under which a row counts as compliant: exactly the
    string "Compliant", or no Classification column at all. *)
Definition counts_as_compliant (row : gmap string cell) : Prop :=
  row !! "Classification" = None \/ row !! "Classification" = Some (CStr "Compliant").

(** The class as the module is loaded. *)
Definition fresh_class {num Llm Manager Retriever} : Shared num Llm Manager Retriever :=
  {| cls_initialized := false; cls_llm := None; cls_vectorstore_manager := None;
     cls_retriever := None; cls_categories := None; cls_weights := None |}.

(** What a method hands back when it only reads the class. *)
Definition stored {num Llm Manager Retriever} (cls : Shared num Llm Manager Retriever)
    (r : request) : answer num Llm Manager Retriever :=
  match r with
  | Initialize => NoValue
  | GetLlm => AnLlm (cls_llm cls)
  | GetVectorstoreManager => AManager (cls_vectorstore_manager cls)
  | GetRetriever => ARetriever (cls_retriever cls)
  | GetCategories => SomeCategories (cls_categories cls)
  | GetWeights => SomeWeights (cls_weights cls)
  end.

(** ** Sample stores, tables and collaborators *)

(** A store that answers every query with the first [k] of a ranked list. *)
Definition ranked_store (ranked : list Document) : string -> nat -> Eff unit (list Document) :=
  fun _ k w => (Ok (take k ranked), w).

(** A store whose search fails. *)
Definition failing_store : string -> nat -> Eff unit (list Document) :=
  fun _ _ w => (Raise (LibraryError "index cannot be searched"), w).

(** A retriever that answers every query with the same documents. *)
Definition fixed_retriever (found : list Document) : string -> Eff unit (list Document) :=
  fun _ w => (Ok found, w).

(** A stored email with its sender, one category and its classification. *)
Definition stored_email (body sender category classification : string) : Document :=
  {| page_content := body;
     metadata := {[ "From" := MStr sender; "Category" := MList [category];
                    "Classification" := MStr classification ]} |}.

(** Three stored emails, in rank order. *)
Definition ranked_emails : list Document :=
  [stored_email "first" "Ann@Enron.com" "Secrecy" "Non-Compliant";
   stored_email "second" "bob@partner.org" "Compliant" "Compliant";
   stored_email "third" "cy@enron.com" "Secrecy" "Non-Compliant"].

(** A stored email whose category cell was empty in the table. *)
Definition uncategorised_email : Document :=
  {| page_content := "fourth"; metadata := {[ "Category" := MOther "nan" ]} |}.

(** Python's rendering of a list of strings. *)
Definition bracketed (l : list string) : string :=
  "[" +:+ PyStr.join ", " (map (fun s => "'" +:+ s +:+ "'") l) +:+ "]".

(** The fields of an answer that names no category and quotes nothing. *)
Definition no_category_fields : list (string * json) :=
  [("non_compliant", JStr "No"); ("reason", JStr "routine status update");
   ("evidence", JList [])].

(** A [Document] that accepts exactly strings as its text. *)
Definition text_of_cell (c : cell) : outcome string :=
  match c with
  | CStr s => Ok s
  | _ => Raise (LibraryError "ValidationError: page_content is not a string")
  end.

(** A row of a training table. *)
Definition table_row (body category classification : string) : gmap string cell :=
  {[ "From" := CStr "a@x.com"; "To" := CStr "b@y.org"; "Subject" := CStr "status";
     "Body" := CStr body; "Category" := CStr category;
     "Classification" := CStr classification ]}.

(** A row of a table that has no [Subject] column. *)
Definition row_without_subject : gmap string cell :=
  {[ "From" := CStr "a@x.com"; "To" := CStr "b@y.org"; "Body" := CStr "hello" ]}.

(** Every document at the same distance from every query. *)
Definition equidistant : string -> string -> Z := fun _ _ => 0.

(** Collaborators of the shared resources that count how often something
    was constructed. *)
Definition counted_llm : Eff nat string := fun n => (Ok "model", S n).

Definition counted_manager : Eff nat (list Document) :=
  fun n => (Ok [placeholder], S n).

Definition counted_retriever : list Document -> Eff nat string :=
  fun _ n => (Ok "retriever", S n).

(** A store that cannot be opened. *)
Definition broken_manager : Eff nat (list Document) :=
  fun n => (Raise (LibraryError "index cannot be read"), S n).

(** The class once the counted collaborators have built it. *)
Definition built_class : Shared Z string (list Document) string :=
  {| cls_initialized := true; cls_llm := Some "model";
     cls_vectorstore_manager := Some [placeholder];
     cls_retriever := Some "retriever";
     cls_categories := Some ["Secrecy"];
     cls_weights := Some {[ "Secrecy" := 10 ]} |}.

(** * Properties *)

(** ** The external-communication flag *)

Section FlagFacts.
Context {num : Type} `{PyNum num}.
Variable settings : Settings num.

Lemma external_loop_flag domains sd rd :
  external_loop domains sd rd = 0 \/ external_loop domains sd rd = 1.
Proof.
  induction domains as [|d ds IH]; simpl; [now left|].
  destruct (negb (sd =? d)%string || negb (rd =? d)%string)%bool; [now right|exact IH].
Qed.

(** The loop answers 1 as soon as one trusted domain differs from the
    sender's or the receiver's. *)
Lemma external_loop_one domains sd rd :
  external_loop domains sd rd = 1 <->
  exists d, In d domains /\ (sd <> d \/ rd <> d).
Proof.
  induction domains as [|d ds IH]; simpl.
  - split; [discriminate|intros (d & [] & _)].
  - destruct (String.eqb_spec sd d) as [Hs|Hs], (String.eqb_spec rd d) as [Hr|Hr]; simpl.
    + rewrite IH. split.
      * intros (d' & Hin & Hd). exists d'. auto.
      * intros (d' & [<-|Hin] & Hd); [tauto|]. exists d'. auto.
    + split; [|reflexivity]. intros _. exists d. auto.
    + split; [|reflexivity]. intros _. exists d. auto.
    + split; [|reflexivity]. intros _. exists d. auto.
Qed.

(** With one trusted domain the loop and the specification agree. *)
Lemma external_single_domain d sender receiver :
  trusted_domains settings = [d] ->
  external_score settings sender receiver = spec_external_flag [d] sender receiver.
Proof.
  intros Ht. unfold external_score, spec_external_flag. rewrite Ht. simpl.
  destruct (negb _ || negb _)%bool; reflexivity.
Qed.
End FlagFacts.

(** C1.  The flag the code adds is 1 as soon as SOME trusted domain differs
    from the sender's or the receiver's domain.  With the trusted domains
    x.com and y.com, a message from a@x.com to b@x.com (both inside the
    trusted domain x.com) gets the flag point: the score is 11 where the
    specification's wording gives flag 0 and score 10. *)
Theorem external_flag_shared_trusted_domain :
  external_score (rubric ["x.com"; "y.com"]) "a@x.com" "b@x.com" = 1
  /\ spec_external_flag ["x.com"; "y.com"] "a@x.com" "b@x.com" = 0
  /\ calculate_risk_score (rubric ["x.com"; "y.com"]) ["Secrecy"] "a@x.com" "b@x.com" = 11
  /\ calculate_risk_score (rubric ["x.com"]) ["Secrecy"] "a@x.com" "b@x.com" = 10
  /\ calculate_risk_score (rubric ["x.com"]) ["Secrecy"] "a@x.com" "b@y.com" = 11.
Proof. repeat split; vm_compute; reflexivity. Qed.

(** ** Category weights *)

Section WeightFacts.
Context {num : Type} `{PyNum num}.
Variable settings : Settings num.

Lemma fold_add_category cats (acc : num) :
  fold_left (add_category settings) cats acc
  = fold_left num_add (known_weights settings cats) acc.
Proof.
  revert acc. induction cats as [|c cs IH]; intros acc; [reflexivity|].
  change (fold_left (add_category settings) (c :: cs) acc)
    with (fold_left (add_category settings) cs (add_category settings acc c)).
  change (known_weights settings (c :: cs))
    with (match weights settings !! PyStr.strip c with
          | Some w => w :: known_weights settings cs
          | None => known_weights settings cs
          end).
  rewrite IH. unfold add_category.
  destruct (weights settings !! PyStr.strip c) as [w|]; reflexivity.
Qed.

Lemma category_sum_known cats :
  category_sum settings cats
  = fold_left num_add (known_weights settings cats) (num_of_Z 0).
Proof. apply fold_add_category. Qed.

Lemma known_weights_app l1 l2 :
  known_weights settings (l1 ++ l2)
  = known_weights settings l1 ++ known_weights settings l2.
Proof. unfold known_weights. apply omap_app. Qed.

Lemma known_weights_unknown cats :
  Forall (fun cat => weights settings !! PyStr.strip cat = None) cats ->
  known_weights settings cats = [].
Proof.
  induction 1 as [|c cs Hc _ IH]; [reflexivity|].
  unfold known_weights in *. simpl. now rewrite Hc.
Qed.
End WeightFacts.

(** C8.  The category part of the score is the sum, from 0 and in input
    order, of the weights of the trimmed categories found in the weight
    table; a category that is not in the table adds nothing wherever it
    stands, and a list of unknown categories scores as the empty list does
    (the flag alone). *)
Theorem unknown_category_contributes_zero
    {num : Type} `{PyNum num} (settings : Settings num)
    (cats : list string) (sender receiver : string) :
  calculate_risk_score settings cats sender receiver
  = num_round2 (num_add (fold_left num_add (known_weights settings cats) (num_of_Z 0))
                        (num_of_Z (external_score settings sender receiver)))
  /\ (forall before unknown after,
        cats = before ++ unknown :: after ->
        weights settings !! PyStr.strip unknown = None ->
        calculate_risk_score settings cats sender receiver
        = calculate_risk_score settings (before ++ after) sender receiver)
  /\ (Forall (fun cat => weights settings !! PyStr.strip cat = None) cats ->
      calculate_risk_score settings cats sender receiver
      = calculate_risk_score settings [] sender receiver).
Proof.
  unfold calculate_risk_score. rewrite category_sum_known. split; [reflexivity|split].
  - intros l1 u l2 -> Hu. rewrite category_sum_known.
    rewrite !known_weights_app.
    change (u :: l2) with ([u] ++ l2). rewrite known_weights_app.
    rewrite (known_weights_unknown settings [u]); [reflexivity|].
    constructor; [exact Hu|constructor].
  - intros Hall. rewrite (known_weights_unknown settings cats Hall). reflexivity.
Qed.

Lemma unknown_category_contributes_zero_witness :
  calculate_risk_score (rubric ["x.com"]) ["Secrecy"; " Unknown "] "a@x.com" "b@y.com"
  = calculate_risk_score (rubric ["x.com"]) (["Secrecy"] ++ []) "a@x.com" "b@y.com"
  /\ calculate_risk_score (rubric ["x.com"]) ["Unknown"] "a@x.com" "b@y.com"
     = calculate_risk_score (rubric ["x.com"]) [] "a@x.com" "b@y.com".
Proof.
  split.
  - apply (proj1 (proj2 (unknown_category_contributes_zero
             (rubric ["x.com"]) ["Secrecy"; " Unknown "] "a@x.com" "b@y.com"))
             ["Secrecy"] " Unknown " []); reflexivity.
  - apply (proj2 (proj2 (unknown_category_contributes_zero
             (rubric ["x.com"]) ["Unknown"] "a@x.com" "b@y.com"))).
    repeat constructor.
Defined.

(** ** Determinism *)

(** C9.  The score is a function of the categories, the two addresses and
    the configured trusted domains and weights: two configurations that
    agree on those give the same score, and a call hands the process state
    back unchanged, so a second call with the same arguments returns the
    same score. *)
Theorem score_deterministic
    {num : Type} `{PyNum num} (settings settings' : Settings num)
    (cats : list string) (sender receiver : string) :
  trusted_domains settings = trusted_domains settings' ->
  weights settings = weights settings' ->
  calculate_risk_score settings cats sender receiver
  = calculate_risk_score settings' cats sender receiver
  /\ (let first := calculate_risk_score_call cats sender receiver settings in
      let second := calculate_risk_score_call cats sender receiver first.2 in
      first.2 = settings /\ second.2 = settings /\ second.1 = first.1
      /\ first.1 = Ok (calculate_risk_score settings cats sender receiver)).
Proof.
  intros Ht Hw. split.
  - unfold calculate_risk_score, external_score, category_sum.
    rewrite Ht. f_equal. f_equal.
    revert Hw. generalize (num_of_Z 0).
    induction cats as [|c cs IH]; intros acc Hw; [reflexivity|].
    simpl. unfold add_category at 2 4. rewrite Hw. apply IH, Hw.
  - simpl. repeat split.
Qed.

Lemma score_deterministic_witness :
  calculate_risk_score (rubric ["x.com"]) ["Secrecy"] "a@x.com" "b@y.com"
  = calculate_risk_score
      {| categories := ["Secrecy"; "Market Manipulation"];
         weights := {[ "Secrecy" := 10 ]};
         trusted_domains := ["x.com"];
         search_k := Some 5%nat |}
      ["Secrecy"] "a@x.com" "b@y.com".
Proof.
  apply (score_deterministic (rubric ["x.com"])
           {| categories := ["Secrecy"; "Market Manipulation"];
              weights := {[ "Secrecy" := 10 ]};
              trusted_domains := ["x.com"];
              search_k := Some 5%nat |}
           ["Secrecy"] "a@x.com" "b@y.com"); reflexivity.
Defined.

(** ** The stable sort *)

Section StableSortFacts.
Context {A : Type} (before : A -> A -> bool).

Lemma insert_stable_Permutation x l : Permutation (insert_stable before x l) (x :: l).
Proof.
  induction l as [|y l IH]; simpl; [reflexivity|].
  destruct (before x y); [reflexivity|].
  rewrite IH. apply perm_swap.
Qed.

Lemma stable_sort_Permutation l : Permutation (stable_sort before l) l.
Proof.
  induction l as [|x l IH]; simpl; [reflexivity|].
  rewrite insert_stable_Permutation. now constructor.
Qed.

(** Members that the order cannot tell apart keep their relative order:
    a class [P] whose members may all stay in front of one another is
    found in the output exactly as in the input. *)
Lemma insert_stable_filter (P : A -> Prop) `{!forall x, Decision (P x)} x l :
  (forall a b, P a -> P b -> before a b = true) ->
  filter P (insert_stable before x l) = filter P (x :: l).
Proof.
  intros HP. induction l as [|y l IH]; simpl; [reflexivity|].
  destruct (before x y) eqn:Hxy; [reflexivity|].
  rewrite filter_cons, IH, !filter_cons.
  destruct (decide (P y)) as [Hy|Hy], (decide (P x)) as [Hx|Hx]; try reflexivity.
  rewrite (HP x y Hx Hy) in Hxy. discriminate.
Qed.

Lemma stable_sort_filter (P : A -> Prop) `{!forall x, Decision (P x)} l :
  (forall a b, P a -> P b -> before a b = true) ->
  filter P (stable_sort before l) = filter P l.
Proof.
  intros HP. induction l as [|x l IH]; simpl; [reflexivity|].
  rewrite insert_stable_filter by exact HP.
  rewrite !filter_cons, IH. reflexivity.
Qed.

Hypothesis before_total : forall x y, before x y = true \/ before y x = true.
Hypothesis before_trans :
  forall x y z, before x y = true -> before y z = true -> before x z = true.

Lemma insert_stable_sorted x l :
  StronglySorted (fun a b => before a b = true) l ->
  StronglySorted (fun a b => before a b = true) (insert_stable before x l).
Proof.
  induction 1 as [|y l Hl IH Hy]; simpl.
  - repeat constructor.
  - destruct (before x y) eqn:Hxy.
    + constructor; [now constructor|].
      constructor; [exact Hxy|].
      eapply Forall_impl; [exact Hy|]. intros z Hz. simpl in *. eauto.
    + constructor; [exact IH|].
      rewrite insert_stable_Permutation. constructor; [|exact Hy].
      destruct (before_total x y) as [Hc|Hc]; [congruence|exact Hc].
Qed.

Lemma stable_sort_sorted l :
  StronglySorted (fun a b => before a b = true) (stable_sort before l).
Proof.
  induction l as [|x l IH]; simpl; [constructor|].
  apply insert_stable_sorted, IH.
Qed.
End StableSortFacts.

Section SortedReverseFacts.
Context {A num : Type} `{PyNum num} (key : A -> num).

Lemma sorted_reverse_Permutation l : Permutation (sorted_reverse key l) l.
Proof. apply stable_sort_Permutation. Qed.

Lemma sorted_reverse_descending l :
  StronglySorted (fun a b => num_leb (key b) (key a) = true) (sorted_reverse key l).
Proof.
  apply (stable_sort_sorted (fun x y => num_leb (key y) (key x))).
  - intros x y. destruct (num_leb_total (key x) (key y)); auto.
  - intros x y z Hxy Hyz. eapply num_leb_trans; eauto.
Qed.

Lemma sorted_reverse_stable v l :
  filter (fun a => same_key (key a) v) (sorted_reverse key l)
  = filter (fun a => same_key (key a) v) l.
Proof.
  apply (stable_sort_filter (fun x y => num_leb (key y) (key x))).
  intros a b [Ha1 Ha2] [Hb1 Hb2]. eapply num_leb_trans; eauto.
Qed.
End SortedReverseFacts.

(** ** The fresh store *)

(** C2.  A store created without a persisted index holds the placeholder
    document, and [similarity_search] hands it to the caller: for every
    distance, every query and every k of at least 1 the result is exactly
    the placeholder, not the empty list. *)
Theorem fresh_store_returns_placeholder
    {num : Type} `{PyNum num} (distance : string -> string -> num)
    (query : string) (k : nat) :
  similarity_search distance (_load_or_create None) query (S k) = [placeholder].
Proof.
  unfold similarity_search, faiss_similarity_search, _load_or_create, from_texts.
  simpl. destruct k; reflexivity.
Qed.

(** ** Diverse retrieval *)

Section DiverseFacts.

Lemma first_pass_spec k docs : forall earlier seen diverse,
  (forall key, key ∈ seen <-> key ∈ category_key <$> earlier) ->
  (length diverse < k)%nat ->
  (first_pass k docs seen diverse).2
  = diverse ++ take (k - length diverse) (category_representatives earlier docs).
Proof.
  induction docs as [|d rest IH]; intros earlier seen diverse Hseen Hlen.
  - simpl. now rewrite take_nil, app_nil_r.
  - cbn [first_pass category_representatives].
    destruct (decide (category_key d ∈ seen)) as [Hin|Hin].
    + rewrite decide_True by (now apply Hseen).
      apply IH; [|exact Hlen].
      intros key. rewrite fmap_app, elem_of_app, <- Hseen.
      simpl. rewrite list_elem_of_singleton. split; [tauto|].
      intros [?| ->]; tauto.
    + rewrite decide_False by (now rewrite <- Hseen).
      rewrite length_app. simpl length.
      destruct (Nat.leb_spec k (length diverse + 1)) as [Hk|Hk].
      * simpl. replace (k - length diverse)%nat with 1%nat by lia.
        reflexivity.
      * rewrite IH with (earlier := earlier ++ [d]).
        -- rewrite length_app. simpl length.
           replace (k - length diverse)%nat with (S (k - (length diverse + 1))) by lia.
           simpl. now rewrite <- app_assoc.
        -- intros key. rewrite fmap_app, elem_of_app, elem_of_union, <- Hseen.
           simpl. rewrite list_elem_of_singleton, elem_of_singleton. tauto.
        -- rewrite length_app. simpl. lia.
Qed.

Lemma second_pass_spec k selected docs : forall earlier filled,
  (forall d, d ∈ selected ++ filled <-> d ∈ selected \/ d ∈ earlier) ->
  (length (selected ++ filled) < k)%nat ->
  second_pass k docs (selected ++ filled)
  = (selected ++ filled)
    ++ take (k - length (selected ++ filled))
            (filter (fun d => d ∉ selected) (first_occurrences earlier docs)).
Proof.
  induction docs as [|d rest IH]; intros earlier filled Hinv Hlen.
  - simpl. now rewrite filter_nil, take_nil, app_nil_r.
  - cbn [second_pass first_occurrences].
    assert (Hnext : forall x, x ∈ selected ++ filled ->
              forall y, y ∈ selected ++ filled <-> y ∈ selected \/ y ∈ earlier ++ [x]).
    { intros x Hx y. rewrite (elem_of_app earlier [x]), list_elem_of_singleton, Hinv.
      split; [tauto|]. intros [?|[?| ->]]; [tauto..|]. now apply Hinv. }
    destruct (decide (d ∈ selected ++ filled)) as [Hin|Hin].
    + rewrite (IH (earlier ++ [d]) filled (Hnext d Hin) Hlen).
      f_equal. f_equal.
      destruct (decide (d ∈ earlier)) as [He|He]; [reflexivity|].
      rewrite filter_cons, decide_False; [reflexivity|].
      intros Hns. apply Hns. apply Hinv in Hin. tauto.
    + assert (He : d ∉ earlier) by (intros He; apply Hin, Hinv; tauto).
      assert (Hs : d ∉ selected) by (intros Hs; apply Hin, Hinv; tauto).
      rewrite (decide_False (P := d ∈ earlier)) by exact He.
      rewrite filter_cons, decide_True by exact Hs.
      rewrite (length_app (selected ++ filled) [d]). simpl length.
      destruct (Nat.leb_spec k (length (selected ++ filled) + 1)) as [Hk|Hk].
      * replace (k - length (selected ++ filled))%nat with 1%nat by lia.
        reflexivity.
      * rewrite <- (app_assoc selected filled [d]).
        rewrite (IH (earlier ++ [d]) (filled ++ [d])).
        -- rewrite !app_assoc, length_app. simpl length.
           replace (k - length (selected ++ filled))%nat
             with (S (k - (length (selected ++ filled) + 1))) by lia.
           simpl. now rewrite <- !app_assoc.
        -- intros y. rewrite app_assoc, !elem_of_app, list_elem_of_singleton.
           rewrite <- elem_of_app, Hinv. tauto.
        -- rewrite app_assoc, length_app. simpl. lia.
Qed.

Lemma category_representatives_fresh docs : forall earlier d,
  d ∈ category_representatives earlier docs ->
  category_key d ∉ category_key <$> earlier.
Proof.
  induction docs as [|x rest IH]; intros earlier d; simpl.
  - intros Hd. now apply not_elem_of_nil in Hd.
  - destruct (decide _) as [Hx|Hx].
    + intros Hd%IH. rewrite fmap_app, elem_of_app in Hd. tauto.
    + intros [->|Hd%IH]%elem_of_cons; [exact Hx|].
      rewrite fmap_app, elem_of_app in Hd. tauto.
Qed.

Lemma category_representatives_NoDup docs : forall earlier,
  NoDup (category_key <$> category_representatives earlier docs).
Proof.
  induction docs as [|x rest IH]; intros earlier; simpl; [constructor|].
  destruct (decide _) as [Hx|Hx]; [apply IH|].
  rewrite fmap_cons. constructor; [|apply IH].
  intros (d & Hk & Hd)%list_elem_of_fmap.
  apply category_representatives_fresh in Hd.
  apply Hd. rewrite fmap_app, elem_of_app. right. simpl.
  rewrite <- Hk. apply list_elem_of_singleton. reflexivity.
Qed.

Lemma category_representatives_sublist docs : forall earlier,
  category_representatives earlier docs `sublist_of` docs.
Proof.
  induction docs as [|x rest IH]; intros earlier; simpl; [constructor|].
  destruct (decide _); [apply sublist_cons, IH|apply sublist_skip, IH].
Qed.

Lemma first_occurrences_sublist docs : forall earlier,
  first_occurrences earlier docs `sublist_of` docs.
Proof.
  induction docs as [|x rest IH]; intros earlier; simpl; [constructor|].
  destruct (decide _); [apply sublist_cons, IH|apply sublist_skip, IH].
Qed.

Lemma first_occurrences_NoDup docs : forall earlier,
  NoDup (earlier ++ docs) -> first_occurrences earlier docs = docs.
Proof.
  induction docs as [|x rest IH]; intros earlier Hnd; simpl; [reflexivity|].
  rewrite decide_False.
  - f_equal. apply IH. now rewrite <- app_assoc.
  - apply NoDup_app in Hnd as (_ & Hdis & _). intros Hx.
    apply (Hdis x Hx). left.
Qed.

End DiverseFacts.

(** *** Category keys and category sets *)













(** ** The classification engine *)

Section ClassifierFacts.
Context {num W : Type} `{PyNum num}.
Variable settings : Settings num.
Variable get_relevant_documents : string -> Eff W (list Document).
Variable chain_invoke : PromptInput -> Eff W json.
Variable py_str : meta -> string.

Local Abbreviation prompt_for := (prompt_of settings py_str).
Local Abbreviation attempts :=
  (email_attempts settings get_relevant_documents chain_invoke py_str).
Local Abbreviation world_after :=
  (final_world settings get_relevant_documents chain_invoke py_str).
Local Abbreviation results_of :=
  (email_results settings get_relevant_documents chain_invoke py_str).

(** Names the dictionary built inside [classify_email]. *)
Ltac name_prompt row docs :=
  change ({| prompt_From := row_From row; prompt_To := row_To row;
             prompt_Subject := row_Subject row; prompt_Body := row_Body row;
             potential_categories := _; examples := _ |})
    with (prompt_of settings py_str row docs).

(** What a classified email was made of. *)
Lemma classify_email_inv row w r w' :
  classify_email settings get_relevant_documents chain_invoke py_str row w = (Ok r, w') ->
  exists docs w1 kv category evidence,
    get_relevant_documents (row_Body row) w = (Ok docs, w1)
    /\ chain_invoke (prompt_for row docs) w1 = (Ok (JDict kv), w')
    /\ normalize_category (default (JStr "Compliant") (Py.lookup kv "Category"))
       = Ok (JStr category)
    /\ evidence_of (JDict kv) = Ok evidence
    /\ r = {| Classification := classification_of (default JNull (Py.lookup kv "non_compliant"));
              Category := category;
              Risk_Score := calculate_risk_score settings
                              (map PyStr.strip (PyStr.split "," category))
                              (row_From row) (row_To row);
              res_From := row_From row; res_To := row_To row;
              res_Subject := row_Subject row; res_Body := row_Body row;
              Reason := default (JStr "") (Py.lookup kv "reason");
              Evidence := evidence;
              Confidence_Score := default (JStr "") (Py.lookup kv "confidence_score");
              idx := None |}.
Proof.
  unfold classify_email, mbind, eff_bind, lift, mret, eff_ret.
  destruct (get_relevant_documents (row_Body row) w) as [[docs|e] w1] eqn:Hg; [|discriminate].
  name_prompt row docs.
  destruct (chain_invoke (prompt_for row docs) w1) as [[result|e] w2] eqn:Hc; [|discriminate].
  destruct result as [| | | | |l|kv]; try discriminate.
  unfold Py.get at 1.
  destruct (normalize_category _) as [cat|e] eqn:Hn; [|discriminate].
  unfold Py.get at 1.
  destruct cat as [| | | |c| |]; try discriminate.
  unfold Py.split. unfold Py.get at 1.
  destruct (evidence_of (JDict kv)) as [ev|e] eqn:Hev; [|discriminate].
  unfold Py.get at 1.
  intros [= <- <-]. exists docs, w1, kv, c, ev. repeat split; try assumption.
Qed.

(** The converse: when retrieval answers, the chain hands back a dictionary,
    the category normalizes to a string and the evidence can be read, the
    email is classified. *)
Lemma classify_email_Ok row w docs w1 kv w2 category evidence :
  get_relevant_documents (row_Body row) w = (Ok docs, w1) ->
  chain_invoke (prompt_for row docs) w1 = (Ok (JDict kv), w2) ->
  normalize_category (default (JStr "Compliant") (Py.lookup kv "Category"))
  = Ok (JStr category) ->
  evidence_of (JDict kv) = Ok evidence ->
  classify_email settings get_relevant_documents chain_invoke py_str row w
  = (Ok {| Classification := classification_of (default JNull (Py.lookup kv "non_compliant"));
           Category := category;
           Risk_Score := calculate_risk_score settings
                           (map PyStr.strip (PyStr.split "," category))
                           (row_From row) (row_To row);
           res_From := row_From row; res_To := row_To row;
           res_Subject := row_Subject row; res_Body := row_Body row;
           Reason := default (JStr "") (Py.lookup kv "reason");
           Evidence := evidence;
           Confidence_Score := default (JStr "") (Py.lookup kv "confidence_score");
           idx := None |}, w2).
Proof.
  intros Hg Hc Hn Hev.
  unfold classify_email, mbind, eff_bind, lift, mret, eff_ret.
  rewrite Hg.
  name_prompt row docs.
  rewrite Hc. unfold Py.get. rewrite Hn. unfold Py.split.
  fold (Py.get (JDict kv) "evidence"). 
  rewrite Hev. reflexivity.
Qed.

(** A failure of retrieval or of the chain is the failure of the email. *)
Lemma classify_email_retrieval_fails row w e w1 :
  get_relevant_documents (row_Body row) w = (Raise e, w1) ->
  classify_email settings get_relevant_documents chain_invoke py_str row w = (Raise e, w1).
Proof.
  intros Hg. unfold classify_email, mbind, eff_bind. now rewrite Hg.
Qed.

Lemma classify_email_chain_fails row w docs w1 e w2 :
  get_relevant_documents (row_Body row) w = (Ok docs, w1) ->
  chain_invoke (prompt_for row docs) w1 = (Raise e, w2) ->
  classify_email settings get_relevant_documents chain_invoke py_str row w = (Raise e, w2).
Proof.
  intros Hg Hc. unfold classify_email, mbind, eff_bind. rewrite Hg.
  name_prompt row docs.
  now rewrite Hc.
Qed.

(** *** The run of a batch *)

Lemma batch_loop_run rows : forall i results w,
  batch_loop settings get_relevant_documents chain_invoke py_str i rows results w
  = (Ok (results ++ results_of i rows w), world_after rows w).
Proof.
  induction rows as [|row rest IH]; intros i results w.
  - unfold email_results. simpl. now rewrite app_nil_r.
  - cbn [batch_loop]. unfold mbind, eff_bind, try_except at 1.
    unfold email_results. cbn [email_attempts final_world omap].
    unfold kept at 1. cbn [attempt_outcome at_index].
    destruct (classify_email settings get_relevant_documents chain_invoke py_str row w)
      as [[r|e] w1]; cbn [fst snd mret eff_ret].
    + rewrite IH. unfold email_results. now rewrite <- app_assoc.
    + rewrite IH. reflexivity.
Qed.

Lemma classify_batch_run rows w :
  classify_batch settings get_relevant_documents chain_invoke py_str rows w
  = (Ok (sorted_reverse Risk_Score
           (filter (fun r => is_non_compliant r) (results_of 0 rows w))),
     world_after rows w).
Proof.
  unfold classify_batch, mbind, eff_bind. now rewrite batch_loop_run.
Qed.

Lemma email_attempts_lookup rows : forall i w k a,
  attempts i rows w !! k = Some a ->
  at_index a = (i + k)%nat
  /\ rows !! k = Some (at_row a)
  /\ attempt_outcome a
     = (classify_email settings get_relevant_documents chain_invoke py_str
          (at_row a) (world_before a)).1.
Proof.
  induction rows as [|row rest IH]; intros i w k a; [discriminate|].
  destruct k as [|k]; simpl.
  - intros [= <-]. simpl. split; [lia|]. split; reflexivity.
  - intros Hk. destruct (IH _ _ _ _ Hk) as (Hi & Hr & Ho).
    split; [lia|]. split; assumption.
Qed.

Lemma email_attempts_length rows : forall i w,
  length (attempts i rows w) = length rows.
Proof.
  induction rows as [|row rest IH]; intros i w; simpl; [reflexivity|].
  now rewrite IH.
Qed.

Lemma elem_of_email_results i rows w r :
  r ∈ results_of i rows w <->
  exists k a r0,
    attempts i rows w !! k = Some a
    /\ attempt_outcome a = Ok r0
    /\ r = set_idx (i + k) r0.
Proof.
  unfold email_results. rewrite list_elem_of_omap. split.
  - intros (a & Ha & Hk). apply list_elem_of_lookup in Ha as [k Hka].
    destruct (email_attempts_lookup _ _ _ _ _ Hka) as (Hi & _ & _).
    unfold kept in Hk. destruct (attempt_outcome a) as [r0|e] eqn:Ho; [|discriminate].
    injection Hk as <-. exists k, a, r0. rewrite Hi. auto.
  - intros (k & a & r0 & Hka & Ho & ->).
    destruct (email_attempts_lookup _ _ _ _ _ Hka) as (Hi & _ & _).
    exists a. split; [eapply list_elem_of_lookup_2; eauto|].
    unfold kept. now rewrite Ho, Hi.
Qed.

Lemma elem_of_batch_output rows w r :
  r ∈ sorted_reverse Risk_Score
        (filter (fun r => is_non_compliant r) (results_of 0 rows w)) <->
  is_non_compliant r = true /\ r ∈ results_of 0 rows w.
Proof.
  rewrite (sorted_reverse_Permutation Risk_Score), list_elem_of_filter.
  rewrite Is_true_true. reflexivity.
Qed.

(** *** Parsing the verdict *)

Lemma strings_of_strings (items : list string) :
  Py.strings_of (JStr <$> items) = Ok items.
Proof.
  induction items as [|s items IH]; [reflexivity|].
  change (Py.strings_of (JStr <$> s :: items))
    with (match Py.strings_of (JStr <$> items) with
          | Ok ss => Ok (s :: ss)
          | Raise e => Raise e
          end).
  now rewrite IH.
Qed.

Lemma normalize_missing (category : json) :
  Py.eq_str category "nan" = true \/ Py.truthy category = false ->
  normalize_category category = Ok (JStr "Compliant").
Proof.
  intros Hc. unfold normalize_category.
  destruct Hc as [-> | ->]; [reflexivity|]. now rewrite orb_true_r.
Qed.

Lemma normalize_list (items : list string) :
  items <> [] ->
  normalize_category (JList (JStr <$> items)) = Ok (JStr (PyStr.join ", " items)).
Proof.
  intros Hne. unfold normalize_category, Py.join.
  destruct items as [|s items]; [congruence|].
  change (Py.eq_str _ "nan" || negb (Py.truthy _))%bool with false.
  cbv iota. unfold Py.join. now rewrite (strings_of_strings (s :: items)).
Qed.

Lemma normalize_string (s : string) :
  s <> "nan" -> s <> "" ->
  normalize_category (JStr s) = Ok (JStr s).
Proof.
  intros Hnan Hempty. unfold normalize_category. simpl.
  apply String.eqb_neq in Hnan, Hempty. now rewrite Hnan, Hempty.
Qed.

Lemma classification_of_yes (field : option json) :
  classification_of (default JNull field) = "Non-Compliant"
  <-> field = Some (JStr "Yes").
Proof.
  unfold classification_of.
  destruct field as [[| | | |s| |]|]; simpl; try (split; discriminate).
  destruct (String.eqb_spec s "Yes") as [->|Hs]; split; try discriminate; try reflexivity.
  intros [= ->]. congruence.
Qed.

Lemma classification_of_cases (non_compliant : json) :
  classification_of non_compliant = "Non-Compliant"
  \/ classification_of non_compliant = "Compliant".
Proof. unfold classification_of. destruct (Py.eq_str _ _); auto. Qed.

(** C6.  Whatever else the response holds: a category field that is the
    string "nan", an empty value or absent gives the category "Compliant";
    a non-empty list of strings gives its items joined by ", ", and the
    risk score is computed from the parts of that joined string; any other
    string is kept. *)
Theorem category_normalization
    (row : Row) (w w1 w2 : W) (docs : list Document)
    (kv : list (string * json)) (evidence : json) :
  get_relevant_documents (row_Body row) w = (Ok docs, w1) ->
  chain_invoke (prompt_for row docs) w1 = (Ok (JDict kv), w2) ->
  evidence_of (JDict kv) = Ok evidence ->
  let field := default (JStr "Compliant") (Py.lookup kv "Category") in
  let classified category :=
    exists r,
      classify_email settings get_relevant_documents chain_invoke py_str row w = (Ok r, w2)
      /\ Category r = category
      /\ Risk_Score r
         = calculate_risk_score settings
             (map PyStr.strip (PyStr.split "," category)) (row_From row) (row_To row) in
  (Py.lookup kv "Category" = None -> classified "Compliant")
  /\ (Py.eq_str field "nan" = true \/ Py.truthy field = false -> classified "Compliant")
  /\ (forall items, field = JList (JStr <$> items) -> items <> [] ->
        classified (PyStr.join ", " items))
  /\ (forall s, field = JStr s -> s <> "nan" -> s <> "" -> classified s).
Proof.
  intros Hg Hc Hev field classified.
  assert (Hok : forall c, normalize_category field = Ok (JStr c) -> classified c).
  { intros c Hn. eexists. split; [|split].
    - apply (classify_email_Ok row w docs w1 kv w2 c evidence Hg Hc Hn Hev).
    - reflexivity.
    - reflexivity. }
  repeat split.
  - intros Hnone. apply Hok. unfold field. rewrite Hnone. reflexivity.
  - intros Hmiss. apply Hok, normalize_missing, Hmiss.
  - intros items -> Hne. apply Hok, normalize_list, Hne.
  - intros s -> Hnan Hempty. apply Hok, normalize_string; assumption.
Qed.

(** C10.  An email that was classified is "Non-Compliant" exactly when the
    field [non_compliant] of the parsed response is the string "Yes", and
    "Compliant" in every other case; every result that [classify_batch]
    returns comes from an email whose response had that field equal to
    "Yes", so an email with any other value is absent from the list. *)
Theorem classification_iff_yes (rows : list Row) (w : W) :
  (forall row w0 r w',
      classify_email settings get_relevant_documents chain_invoke py_str row w0 = (Ok r, w') ->
      exists docs w1 kv,
        get_relevant_documents (row_Body row) w0 = (Ok docs, w1)
        /\ chain_invoke (prompt_for row docs) w1 = (Ok (JDict kv), w')
        /\ (Classification r = "Non-Compliant"
            <-> Py.lookup kv "non_compliant" = Some (JStr "Yes"))
        /\ (Py.lookup kv "non_compliant" <> Some (JStr "Yes")
            -> Classification r = "Compliant"))
  /\ (forall out wf,
        classify_batch settings get_relevant_documents chain_invoke py_str rows w
        = (Ok out, wf) ->
        (forall r, r ∈ out ->
           exists k a r0 docs w1 kv w',
             attempts 0 rows w !! k = Some a
             /\ attempt_outcome a = Ok r0
             /\ r = set_idx k r0
             /\ get_relevant_documents (row_Body (at_row a)) (world_before a) = (Ok docs, w1)
             /\ chain_invoke (prompt_for (at_row a) docs) w1 = (Ok (JDict kv), w')
             /\ Py.lookup kv "non_compliant" = Some (JStr "Yes"))
        /\ (forall k a r0,
              attempts 0 rows w !! k = Some a ->
              attempt_outcome a = Ok r0 ->
              Classification r0 <> "Non-Compliant" ->
              forall r, r ∈ out -> idx r <> Some k)).
Proof.
  assert (Hone : forall row w0 r w',
      classify_email settings get_relevant_documents chain_invoke py_str row w0 = (Ok r, w') ->
      exists docs w1 kv,
        get_relevant_documents (row_Body row) w0 = (Ok docs, w1)
        /\ chain_invoke (prompt_for row docs) w1 = (Ok (JDict kv), w')
        /\ (Classification r = "Non-Compliant"
            <-> Py.lookup kv "non_compliant" = Some (JStr "Yes"))
        /\ (Py.lookup kv "non_compliant" <> Some (JStr "Yes")
            -> Classification r = "Compliant")).
  { intros row w0 r w' Hrun.
    destruct (classify_email_inv _ _ _ _ Hrun)
      as (docs & w1 & kv & c & ev & Hg & Hc & _ & _ & ->).
    exists docs, w1, kv. split; [exact Hg|]. split; [exact Hc|].
    cbn [Classification]. split; [apply classification_of_yes|].
    intros Hno.
    destruct (classification_of_cases (default JNull (Py.lookup kv "non_compliant")))
      as [Hnc|Hc']; [|exact Hc'].
    apply classification_of_yes in Hnc. contradiction. }
  split; [exact Hone|].
  intros out wf. rewrite classify_batch_run. intros [= <- <-]. split.
  - intros r [Hnc Hr]%elem_of_batch_output.
    apply elem_of_email_results in Hr as (k & a & r0 & Hka & Ho & ->).
    destruct (email_attempts_lookup _ _ _ _ _ Hka) as (_ & _ & Hout).
    destruct (classify_email settings get_relevant_documents chain_invoke py_str
                (at_row a) (world_before a)) as [o w'] eqn:Hrun.
    simpl in Hout. rewrite Ho in Hout. subst o.
    destruct (Hone _ _ _ _ Hrun) as (docs & w1 & kv & Hg & Hc & Hiff & _).
    exists k, a, r0, docs, w1, kv, w'. repeat split; try assumption.
    apply Hiff. unfold is_non_compliant in Hnc. simpl in Hnc.
    now apply String.eqb_eq in Hnc.
  - intros k a r0 Hka Ho Hcl r [Hnc Hr]%elem_of_batch_output.
    apply elem_of_email_results in Hr as (k' & a' & r0' & Hka' & Ho' & ->).
    simpl. intros [= ->]. rewrite Hka in Hka'. injection Hka' as <-.
    rewrite Ho in Ho'. injection Ho' as <-.
    apply Hcl. unfold is_non_compliant in Hnc. simpl in Hnc.
    now apply String.eqb_eq in Hnc.
Qed.

(** C3.  [classify_batch] returns, for every batch, the results of the
    classified emails whose Classification is "Non-Compliant" and no other:
    a permutation of them, in descending order of risk score, results with
    equal scores in their input order. *)
Theorem classify_batch_violations_sorted (rows : list Row) (w : W) :
  exists out,
    classify_batch settings get_relevant_documents chain_invoke py_str rows w
    = (Ok out, world_after rows w)
    /\ Permutation out (filter (fun r => is_non_compliant r) (results_of 0 rows w))
    /\ (forall r, r ∈ out <->
          Classification r = "Non-Compliant" /\ r ∈ results_of 0 rows w)
    /\ StronglySorted (fun a b => num_leb (Risk_Score b) (Risk_Score a) = true) out
    /\ (forall v,
          filter (fun r => same_key (Risk_Score r) v) out
          = filter (fun r => same_key (Risk_Score r) v)
              (filter (fun r => is_non_compliant r) (results_of 0 rows w))).
Proof.
  eexists. split; [apply classify_batch_run|].
  split; [apply sorted_reverse_Permutation|].
  split; [|split].
  - intros r. rewrite elem_of_batch_output. unfold is_non_compliant.
    now rewrite String.eqb_eq.
  - apply sorted_reverse_descending.
  - intros v. apply sorted_reverse_stable.
Qed.

(** C5.  [classify_batch] returns for every batch, whatever fails inside:
    an email whose classification raised leaves no result, and every other
    email's result is in the returned list when it is "Non-Compliant" (the
    list holds no other results). *)
Theorem classify_batch_isolates_failures (rows : list Row) (w : W) :
  exists out,
    classify_batch settings get_relevant_documents chain_invoke py_str rows w
    = (Ok out, world_after rows w)
    /\ (forall k a e,
          attempts 0 rows w !! k = Some a ->
          attempt_outcome a = Raise e ->
          forall r, r ∈ out -> idx r <> Some k)
    /\ (forall k a r0,
          attempts 0 rows w !! k = Some a ->
          attempt_outcome a = Ok r0 ->
          Classification r0 = "Non-Compliant" ->
          set_idx k r0 ∈ out)
    /\ (forall r, r ∈ out ->
          exists k a r0,
            attempts 0 rows w !! k = Some a
            /\ attempt_outcome a = Ok r0
            /\ r = set_idx k r0).
Proof.
  eexists. split; [apply classify_batch_run|]. split; [|split].
  - intros k a e Hka He r [_ Hr]%elem_of_batch_output.
    apply elem_of_email_results in Hr as (k' & a' & r0' & Hka' & Ho' & ->).
    simpl. intros [= ->]. rewrite Hka in Hka'. injection Hka' as <-. congruence.
  - intros k a r0 Hka Ho Hnc. apply elem_of_batch_output. split.
    + unfold is_non_compliant. simpl. now apply String.eqb_eq.
    + apply elem_of_email_results. exists k, a, r0. auto.
  - intros r [_ Hr]%elem_of_batch_output.
    apply elem_of_email_results in Hr as (k & a & r0 & Hka & Ho & ->).
    exists k, a, r0. auto.
Qed.

(** *** Retrieval failures *)

(** C7.  [get_similar_emails] never raises: when the retriever raises it
    returns the empty list, otherwise the documents of the retriever.
    Classification does not go through it: [classify_email] calls the
    retriever itself, so a retrieval failure on the body of an email makes
    [classify_email] raise, and [classify_batch] leaves that email out of
    its result and goes on with the next. *)
Theorem retrieval_failure_recovered_in_wrapper_only
    (query : string) (k : option nat) (row : Row) (rows : list Row) (w : W) :
  (exists docs w',
     get_similar_emails settings get_relevant_documents query k w = (Ok docs, w'))
  /\ (forall e w',
        get_relevant_documents query w = (Raise e, w') ->
        get_similar_emails settings get_relevant_documents query k w = (Ok [], w'))
  /\ (forall docs w',
        get_relevant_documents query w = (Ok docs, w') ->
        get_similar_emails settings get_relevant_documents query k w = (Ok docs, w'))
  /\ (forall e w',
        get_relevant_documents (row_Body row) w = (Raise e, w') ->
        classify_email settings get_relevant_documents chain_invoke py_str row w
        = (Raise e, w'))
  /\ (exists out,
        classify_batch settings get_relevant_documents chain_invoke py_str rows w
        = (Ok out, world_after rows w)
        /\ forall i a e w',
             attempts 0 rows w !! i = Some a ->
             get_relevant_documents (row_Body (at_row a)) (world_before a)
             = (Raise e, w') ->
             forall r, r ∈ out -> idx r <> Some i).
Proof.
  split; [|split; [|split; [|split]]].
  - unfold get_similar_emails, try_except, mbind, eff_bind, mret, eff_ret.
    destruct (get_relevant_documents query w) as [[docs|e] w1]; eauto.
  - intros e w' Hq.
    unfold get_similar_emails, try_except, mbind, eff_bind, mret, eff_ret.
    now rewrite Hq.
  - intros docs w' Hq.
    unfold get_similar_emails, try_except, mbind, eff_bind, mret, eff_ret.
    now rewrite Hq.
  - intros e w'. apply classify_email_retrieval_fails.
  - eexists. split; [apply classify_batch_run|].
    intros i a e w' Hia Hq r [_ Hr]%elem_of_batch_output.
    apply elem_of_email_results in Hr as (i' & a' & r0 & Hia' & Ho & ->).
    simpl. intros [= ->]. rewrite Hia in Hia'. injection Hia' as <-.
    destruct (email_attempts_lookup _ _ _ _ _ Hia) as (_ & _ & Hout).
    rewrite (classify_email_retrieval_fails _ _ _ _ Hq) in Hout.
    simpl in Hout. congruence.
Qed.

End ClassifierFacts.

(** ** The five-email batches *)

Example batch_third_compliant :
  summary (run_batch answers_third_compliant)
  = [(Some 1%nat, 9); (Some 4%nat, 7); (Some 0%nat, 3); (Some 3%nat, 1)].
Proof. vm_compute. reflexivity. Qed.

Example batch_tied_scores :
  summary (run_batch answers_all_violations)
  = [(Some 1%nat, 9); (Some 2%nat, 9); (Some 4%nat, 7); (Some 0%nat, 3); (Some 3%nat, 1)].
Proof. vm_compute. reflexivity. Qed.

Example batch_third_malformed :
  summary (run_batch answers_third_malformed)
  = [(Some 1%nat, 9); (Some 4%nat, 7); (Some 0%nat, 3); (Some 3%nat, 1)].
Proof. vm_compute. reflexivity. Qed.

Example batch_third_lowercase :
  summary (run_batch answers_third_lowercase)
  = [(Some 4%nat, 7); (Some 0%nat, 3); (Some 3%nat, 1)].
Proof. vm_compute. reflexivity. Qed.

Lemma classify_batch_violations_sorted_witness :
  exists out,
    run_batch answers_all_violations = (Ok out, tt)
    /\ StronglySorted (fun a b => (Risk_Score b <=? Risk_Score a) = true) out.
Proof.
  destruct (classify_batch_violations_sorted rubric_1379 no_examples
              (scripted_chain answers_all_violations) shown batch5 tt)
    as (out & Hrun & _ & _ & Hsorted & _).
  exists out. split; [exact Hrun|exact Hsorted].
Defined.

Lemma classify_batch_isolates_failures_witness :
  exists out,
    run_batch answers_third_malformed = (Ok out, tt)
    /\ (forall r, r ∈ out -> idx r <> Some 2%nat).
Proof.
  destruct (classify_batch_isolates_failures rubric_1379 no_examples
              (scripted_chain answers_third_malformed) shown batch5 tt)
    as (out & Hrun & Hfail & _).
  exists out. split; [exact Hrun|].
  eapply (Hfail 2%nat); reflexivity.
Defined.

Lemma category_normalization_witness :
  exists r,
    classify_email rubric_1379 no_examples
      (scripted_chain [("m1", Ok (JDict two_category_fields))]) shown (mail "m1") tt
    = (Ok r, tt)
    /\ Category r = "Nine, One"
    /\ Risk_Score r
       = calculate_risk_score rubric_1379
           (map PyStr.strip (PyStr.split "," "Nine, One")) "a@x.com" "b@x.com".
Proof.
  apply (proj1 (proj2 (proj2 (category_normalization rubric_1379 no_examples
           (scripted_chain [("m1", Ok (JDict two_category_fields))]) shown
           (mail "m1") tt tt tt [] two_category_fields (JStr "keep this between us")
           eq_refl eq_refl eq_refl))) ["Nine"; "One"]).
  - reflexivity.
  - discriminate.
Defined.

Lemma classification_iff_yes_witness :
  exists out,
    run_batch answers_third_lowercase = (Ok out, tt)
    /\ (forall r, r ∈ out -> idx r <> Some 2%nat).
Proof.
  destruct (run_batch answers_third_lowercase) as [[out|e] []] eqn:Hrun.
  - exists out. split; [reflexivity|].
    eapply (proj2 (proj2 (classification_iff_yes rubric_1379 no_examples
              (scripted_chain answers_third_lowercase) shown batch5 tt) out tt Hrun)
              2%nat).
    + reflexivity.
    + reflexivity.
    + discriminate.
  - vm_compute in Hrun. discriminate.
Defined.

Lemma retrieval_failure_recovered_in_wrapper_only_witness :
  get_similar_emails rubric_1379 unreadable_index "m2" None tt = (Ok [], tt)
  /\ classify_email rubric_1379 unreadable_index
       (scripted_chain answers_all_violations) shown (mail "m2") tt
     = (Raise (LibraryError "index cannot be read"), tt).
Proof.
  destruct (retrieval_failure_recovered_in_wrapper_only rubric_1379 unreadable_index
              (scripted_chain answers_all_violations) shown "m2" None (mail "m2")
              batch5 tt) as (_ & Hwrapper & _ & Hclassify & _).
  split.
  - apply (Hwrapper (LibraryError "index cannot be read") tt). reflexivity.
  - apply (Hclassify (LibraryError "index cannot be read") tt). reflexivity.
Defined.

(** With an index that cannot be read the wrapper answers with the empty
    list, but the classification of an email is aborted: [classify_email]
    raises, and the batch whose five emails are all violations comes back
    empty.  With a retriever that answers, the same emails are classified. *)
Lemma retrieval_failure_aborts_classification :
  get_similar_emails rubric_1379 unreadable_index "m2" None tt = (Ok [], tt)
  /\ classify_email rubric_1379 unreadable_index
       (scripted_chain answers_all_violations) shown (mail "m2") tt
     = (Raise (LibraryError "index cannot be read"), tt)
  /\ classify_batch rubric_1379 unreadable_index
       (scripted_chain answers_all_violations) shown batch5 tt = (Ok [], tt)
  /\ summary (run_batch answers_all_violations)
     = [(Some 1%nat, 9); (Some 2%nat, 9); (Some 4%nat, 7); (Some 0%nat, 3);
        (Some 3%nat, 1)].
Proof. repeat split; vm_compute; reflexivity. Qed.

(** ** The scorer and the letter case of addresses and domains *)

Lemma lower_char_not_upper c : is_upper (PyStr.lower_char c) = false.
Proof. destruct c as [[] [] [] [] [] [] [] []]; vm_compute; reflexivity. Qed.

Lemma lower_char_at c : Ascii.eqb (PyStr.lower_char c) "@" = Ascii.eqb c "@".
Proof. destruct c as [[] [] [] [] [] [] [] []]; vm_compute; reflexivity. Qed.

Lemma lower_char_idem c : PyStr.lower_char (PyStr.lower_char c) = PyStr.lower_char c.
Proof. destruct c as [[] [] [] [] [] [] [] []]; vm_compute; reflexivity. Qed.


Lemma lower_idem s : PyStr.lower (PyStr.lower s) = PyStr.lower s.
Proof. induction s as [|c s IH]; simpl; [reflexivity|]. now rewrite lower_char_idem, IH. Qed.

Lemma lower_no_upper s : has_upper (PyStr.lower s) = false.
Proof.
  induction s as [|c s IH]; simpl; [reflexivity|].
  now rewrite lower_char_not_upper, IH.
Qed.

Lemma split_at_lower s :
  PyStr.split "@" (PyStr.lower s) = map PyStr.lower (PyStr.split "@" s).
Proof.
  induction s as [|c s IH]; simpl; [reflexivity|].
  rewrite lower_char_at. destruct (Ascii.eqb c "@"); simpl; [now rewrite IH|].
  rewrite IH. destruct (PyStr.split "@" s); reflexivity.
Qed.

Lemma last_part_lower (parts : list string) :
  PyStr.last_part (map PyStr.lower parts) = PyStr.lower (PyStr.last_part parts).
Proof.
  unfold PyStr.last_part. induction parts as [|p [|q parts] IH]; try reflexivity.
  exact IH.
Qed.

Lemma domain_of_lower addr : domain_of (PyStr.lower addr) = domain_of addr.
Proof.
  unfold domain_of. now rewrite split_at_lower, last_part_lower, lower_idem.
Qed.

Lemma domain_of_no_upper addr : has_upper (domain_of addr) = false.
Proof. apply lower_no_upper. Qed.

(** X1.  The score does not depend on the letter case of the two addresses:
    addresses that are equal after [str.lower] get the same score, whatever
    the rubric and the categories. *)
Theorem score_ignores_address_case
    {num : Type} `{PyNum num} (settings : Settings num) (cats : list string)
    (sender sender' receiver receiver' : string) :
  PyStr.lower sender = PyStr.lower sender' ->
  PyStr.lower receiver = PyStr.lower receiver' ->
  calculate_risk_score settings cats sender receiver
  = calculate_risk_score settings cats sender' receiver'.
Proof.
  intros Hs Hr. unfold calculate_risk_score, external_score.
  rewrite <- (domain_of_lower sender), <- (domain_of_lower receiver), Hs, Hr.
  now rewrite !domain_of_lower.
Qed.

(** X2.  The domains of sender and receiver are lowercased, the configured
    trusted domains are not: as soon as one trusted domain is written with a
    capital letter, every message gets the external point. *)
Theorem uppercase_trusted_domain_flags_all
    {num : Type} (settings : Settings num) (d sender receiver : string) :
  In d (trusted_domains settings) ->
  has_upper d = true ->
  external_score settings sender receiver = 1.
Proof.
  intros Hin Hup. unfold external_score. apply external_loop_one.
  exists d. split; [exact Hin|]. left. intros Heq.
  rewrite <- Heq, domain_of_no_upper in Hup. discriminate.
Qed.

(** X3.  With two different trusted domains in the configuration every
    message gets the external point, whoever sends and receives it: no
    domain equals both. *)
Theorem two_trusted_domains_flag_all
    {num : Type} (settings : Settings num) (d1 d2 sender receiver : string) :
  In d1 (trusted_domains settings) ->
  In d2 (trusted_domains settings) ->
  d1 <> d2 ->
  external_score settings sender receiver = 1.
Proof.
  intros H1 H2 Hne. unfold external_score. apply external_loop_one.
  destruct (String.eqb_spec (domain_of sender) d1) as [Heq|Hneq].
  - exists d2. split; [exact H2|]. left. congruence.
  - exists d1. split; [exact H1|]. now left.
Qed.

(** ** The category list through the prompt and back *)

Lemma rstrip_head c s :
  PyStr.rstrip (String c s) = EmptyString
  \/ exists r, PyStr.rstrip (String c s) = String c r.
Proof.
  simpl. destruct (PyStr.rstrip s); [|eauto].
  destruct (PyStr.is_space c); eauto.
Qed.

Lemma rstrip_idem s : PyStr.rstrip (PyStr.rstrip s) = PyStr.rstrip s.
Proof.
  induction s as [|c s IH]; [reflexivity|].
  simpl. destruct (PyStr.rstrip s) as [|d t] eqn:Hr.
  - destruct (PyStr.is_space c) eqn:Hc; [reflexivity|]. simpl. now rewrite Hc.
  - change (PyStr.rstrip (String c (String d t)))
      with (match PyStr.rstrip (String d t) with
            | EmptyString => if PyStr.is_space c then EmptyString else String c EmptyString
            | r => String c r
            end).
    now rewrite IH.
Qed.

Lemma lstrip_head s :
  PyStr.lstrip s = EmptyString
  \/ exists c t, PyStr.lstrip s = String c t /\ PyStr.is_space c = false.
Proof.
  induction s as [|c s IH]; [now left|].
  simpl. destruct (PyStr.is_space c) eqn:Hc; [exact IH|]. right. eauto.
Qed.

Lemma strip_idem s : PyStr.strip (PyStr.strip s) = PyStr.strip s.
Proof.
  unfold PyStr.strip.
  destruct (lstrip_head s) as [->|(c & t & -> & Hc)]; [reflexivity|].
  destruct (rstrip_head c t) as [->|[r Hr]]; [reflexivity|].
  rewrite Hr. simpl PyStr.lstrip. rewrite Hc. rewrite <- Hr. apply rstrip_idem.
Qed.

Lemma strip_leading_space s : PyStr.strip (String " " s) = PyStr.strip s.
Proof. reflexivity. Qed.

Lemma split_not_nil sep s : PyStr.split sep s <> [].
Proof.
  destruct s as [|c s]; simpl; [discriminate|].
  destruct (Ascii.eqb c sep); [discriminate|].
  destruct (PyStr.split sep s); discriminate.
Qed.

Lemma split_app_sep sep x rest :
  has_char sep x = false ->
  PyStr.split sep (x +:+ String sep rest) = x :: PyStr.split sep rest.
Proof.
  induction x as [|c x IH]; simpl.
  - intros _. now rewrite Ascii.eqb_refl.
  - intros [Hc Hx]%orb_false_iff. rewrite Hc, (IH Hx). reflexivity.
Qed.

Lemma split_no_sep sep x :
  has_char sep x = false -> PyStr.split sep x = [x].
Proof.
  induction x as [|c x IH]; simpl; [reflexivity|].
  intros [Hc Hx]%orb_false_iff. now rewrite Hc, (IH Hx).
Qed.

Lemma split_join_comma (x : string) (rest : list string) :
  Forall (fun item => has_char "," item = false) (x :: rest) ->
  PyStr.split "," (PyStr.join ", " (x :: rest)) = x :: map (String " ") rest.
Proof.
  revert x. induction rest as [|y rest IH]; intros x Hall.
  - simpl. apply split_no_sep. now inversion Hall.
  - inversion Hall as [|? ? Hx Hrest]; subst.
    change (PyStr.join ", " (x :: y :: rest))
      with (x +:+ String "," (String " " (PyStr.join ", " (y :: rest)))).
    rewrite (split_app_sep "," x _ Hx).
    change (PyStr.split "," (String " " (PyStr.join ", " (y :: rest))))
      with (match PyStr.split "," (PyStr.join ", " (y :: rest)) with
            | [] => [String " " EmptyString]
            | p :: ps => String " " p :: ps
            end).
    rewrite (IH y Hrest). reflexivity.
Qed.

Section ScoreOfParts.
Context {num : Type} `{PyNum num}.
Variable settings : Settings num.

Lemma category_sum_strip cats :
  category_sum settings (map PyStr.strip cats) = category_sum settings cats.
Proof.
  unfold category_sum. generalize (num_of_Z 0).
  induction cats as [|c cats IH]; intros acc; [reflexivity|].
  simpl. unfold add_category at 2 4. rewrite strip_idem. apply IH.
Qed.

(** X4.  [classify_email] joins a list of categories with a comma and a space
    and scores the text split at the commas.  For a non-empty list whose
    items hold no comma, the split and stripped parts are the stripped items,
    and the score is the score of the list itself. *)
Theorem category_list_round_trip (items : list string) (sender receiver : string) :
  items <> [] ->
  Forall (fun item => has_char "," item = false) items ->
  map PyStr.strip (PyStr.split "," (PyStr.join ", " items)) = map PyStr.strip items
  /\ calculate_risk_score settings
       (map PyStr.strip (PyStr.split "," (PyStr.join ", " items))) sender receiver
     = calculate_risk_score settings items sender receiver.
Proof.
  intros Hne Hall. destruct items as [|x rest]; [congruence|].
  assert (Hparts : map PyStr.strip (PyStr.split "," (PyStr.join ", " (x :: rest)))
                   = map PyStr.strip (x :: rest)).
  { rewrite (split_join_comma x rest Hall). simpl. f_equal.
    rewrite map_map. apply map_ext. intros y. apply strip_leading_space. }
  split; [exact Hparts|].
  unfold calculate_risk_score. now rewrite Hparts, category_sum_strip.
Qed.
End ScoreOfParts.

(** ** Filtered searches *)

Section FilterFacts.
Context {A : Type} (cond : A -> outcome bool).

Lemma filter_raising_Ok l kept :
  filter_raising cond l = Ok kept ->
  kept `sublist_of` l
  /\ (forall x, x ∈ kept -> cond x = Ok true)
  /\ (forall x, x ∈ l -> cond x = Ok true -> x ∈ kept)
  /\ (forall x, x ∈ l -> exists b, cond x = Ok b).
Proof.
  revert kept. induction l as [|x l IH]; simpl; intros kept.
  - intros [= <-]. split; [constructor|]. repeat split; intros x Hx; now apply not_elem_of_nil in Hx.
  - destruct (cond x) as [b|e] eqn:Hx; [|discriminate].
    destruct (filter_raising cond l) as [kept'|e]; [|discriminate].
    intros [= <-]. destruct (IH kept' eq_refl) as (Hsub & Hall & Hin & Hok).
    split; [|split; [|split]].
    + destruct b; [now apply sublist_skip|now apply sublist_cons].
    + intros y Hy. destruct b.
      * apply elem_of_cons in Hy as [->|Hy]; [exact Hx|now apply Hall].
      * now apply Hall.
    + intros y [->|Hy]%elem_of_cons Hc.
      * rewrite Hx in Hc. injection Hc as ->. left.
      * destruct b; [right|]; now apply Hin.
    + intros y [->|Hy]%elem_of_cons; [eauto|now apply Hok].
Qed.

Lemma filter_raising_Raise l x e :
  x ∈ l -> cond x = Raise e -> exists e', filter_raising cond l = Raise e'.
Proof.
  induction l as [|y l IH]; intros Hx Hc; [now apply not_elem_of_nil in Hx|].
  simpl. destruct (cond y) as [b|e1] eqn:Hy; [|eauto].
  apply elem_of_cons in Hx as [->|Hx]; [congruence|].
  destruct (IH Hx Hc) as [e' ->]. eauto.
Qed.

Lemma filter_raising_none l :
  (forall x, x ∈ l -> cond x <> Ok true) ->
  filter_raising cond l = Ok [] \/ exists e, filter_raising cond l = Raise e.
Proof.
  induction l as [|y l IH]; intros Hno; [now left|].
  simpl. destruct (cond y) as [b|e] eqn:Hy; [|eauto].
  destruct IH as [->|[e ->]]; [intros x Hx; apply Hno; now right| |eauto].
  left. destruct b; [|reflexivity]. exfalso. apply (Hno y); [left|exact Hy].
Qed.

Lemma filter_raising_total l :
  (forall x, x ∈ l -> exists b, cond x = Ok b) ->
  exists kept, filter_raising cond l = Ok kept.
Proof.
  induction l as [|y l IH]; intros Hok; [simpl; eauto|].
  simpl. destruct (Hok y) as [b ->]; [left|].
  destruct IH as [kept ->]; [intros x Hx; apply Hok; now right|]. eauto.
Qed.

Lemma filter_raising_ext (cond' : A -> outcome bool) l :
  (forall x, cond x = cond' x) -> filter_raising cond l = filter_raising cond' l.
Proof.
  intros Hext. induction l as [|y l IH]; [reflexivity|].
  simpl. now rewrite Hext, IH.
Qed.
End FilterFacts.

Section FilteredSearchFacts.
Context {W : Type}.
Variable store_search : string -> nat -> Eff W (list Document).

(** A filtered search never raises, returns at most [k] documents, and when
    the store answers they are candidates that passed the test, in rank
    order. *)
Lemma filtered_search_results cond query k w :
  exists docs w',
    filtered_search store_search cond query k w = (Ok docs, w')
    /\ (length docs <= k)%nat
    /\ (forall cands w1,
          store_search query (k * 3)%nat w = (Ok cands, w1) ->
          w' = w1
          /\ docs `sublist_of` cands
          /\ (forall d, d ∈ docs -> cond d = Ok true)).
Proof.
  unfold filtered_search, try_except, mbind, eff_bind, lift, mret, eff_ret.
  destruct (store_search query (k * 3)%nat w) as [[cands|e] w1].
  - destruct (filter_raising cond cands) as [kept|e] eqn:Hf.
    + exists (take k kept), w1. split; [reflexivity|].
      split; [rewrite length_take; lia|].
      intros cands' w1' [= <- <-].
      destruct (filter_raising_Ok cond cands kept Hf) as (Hsub & Hall & _).
      split; [reflexivity|]. split.
      * etransitivity; [apply sublist_take|exact Hsub].
      * intros d Hd. apply Hall. eapply elem_of_sublist; [exact Hd|apply sublist_take].
    + exists [], w1. split; [reflexivity|]. split; [simpl; lia|].
      intros cands' w1' [= <- <-]. split; [reflexivity|].
      split; [apply sublist_nil_l|]. intros d Hd. now apply not_elem_of_nil in Hd.
  - exists [], w1. split; [reflexivity|]. split; [simpl; lia|]. discriminate.
Qed.

(** When the store answers and no test raises, the result is the first [k]
    of the candidates that pass. *)
Lemma filtered_search_complete cond query k w cands w1 :
  store_search query (k * 3)%nat w = (Ok cands, w1) ->
  (forall d, d ∈ cands -> exists b, cond d = Ok b) ->
  exists kept,
    filtered_search store_search cond query k w = (Ok (take k kept), w1)
    /\ kept `sublist_of` cands
    /\ (forall d, d ∈ kept <-> d ∈ cands /\ cond d = Ok true).
Proof.
  intros Hs Hok.
  unfold filtered_search, try_except, mbind, eff_bind, lift, mret, eff_ret.
  rewrite Hs. destruct (filter_raising cond cands) as [kept|e] eqn:Hf.
  - exists kept. split; [reflexivity|].
    destruct (filter_raising_Ok cond cands kept Hf) as (Hsub & Hall & Hin & _).
    split; [exact Hsub|]. intros d. split.
    + intros Hd. split; [eapply elem_of_sublist; eauto|now apply Hall].
    + intros [Hd Hc]. now apply Hin.
  - destruct (filter_raising_total cond cands Hok) as [kept Hk]. congruence.
Qed.

Lemma filtered_search_raising cond query k w cands w1 d e :
  store_search query (k * 3)%nat w = (Ok cands, w1) ->
  d ∈ cands -> cond d = Raise e ->
  filtered_search store_search cond query k w = (Ok [], w1).
Proof.
  intros Hs Hd Hc.
  unfold filtered_search, try_except, mbind, eff_bind, lift, mret, eff_ret.
  rewrite Hs. destruct (filter_raising_Raise cond cands d e Hd Hc) as [e' ->].
  reflexivity.
Qed.

Lemma filtered_search_none cond query k w :
  (forall d, cond d <> Ok true) ->
  exists w', filtered_search store_search cond query k w = (Ok [], w').
Proof.
  intros Hno.
  unfold filtered_search, try_except, mbind, eff_bind, lift, mret, eff_ret.
  destruct (store_search query (k * 3)%nat w) as [[cands|e] w1]; [|eauto].
  destruct (filter_raising_none cond cands) as [->|[e ->]]; [auto| |eauto].
  rewrite take_nil. eauto.
Qed.

Lemma filtered_search_ext cond cond' query k w :
  (forall d, cond d = cond' d) ->
  filtered_search store_search cond query k w
  = filtered_search store_search cond' query k w.
Proof.
  intros Hext.
  unfold filtered_search, try_except, mbind, eff_bind, lift, mret, eff_ret.
  destruct (store_search query (k * 3)%nat w) as [[cands|e] w1]; [|reflexivity].
  now rewrite (filter_raising_ext cond cond' cands Hext).
Qed.

End FilteredSearchFacts.

(** X5.  [get_similar_by_category] never raises and returns at most [k]
    documents.  When the store answers, they are candidates of the search
    for [3k], in rank order, and each carries the category: as an item of
    its category list, or as a substring of a category kept as one
    string. *)
Theorem get_similar_by_category_results
    {W : Type} (store_search : string -> nat -> Eff W (list Document))
    (query category : string) (k : nat) (w : W) :
  exists docs w',
    get_similar_by_category store_search query category k w = (Ok docs, w')
    /\ (length docs <= k)%nat
    /\ (forall cands w1,
          store_search query (k * 3)%nat w = (Ok cands, w1) ->
          docs `sublist_of` cands
          /\ (forall d, d ∈ docs ->
                (exists l, metadata d !! "Category" = Some (MList l) /\ category ∈ l)
                \/ (exists s, metadata d !! "Category" = Some (MStr s)
                              /\ PyText.contains category s = true))).
Proof.
  destruct (filtered_search_results store_search (category_in category) query k w)
    as (docs & w' & Hrun & Hlen & Hres).
  exists docs, w'. split; [exact Hrun|]. split; [exact Hlen|].
  intros cands w1 Hs. destruct (Hres cands w1 Hs) as (_ & Hsub & Hall).
  split; [exact Hsub|]. intros d Hd. specialize (Hall d Hd).
  unfold category_in in Hall.
  destruct (metadata d !! "Category") as [[s|l|o]|]; try discriminate.
  - right. exists s. split; [reflexivity|congruence].
  - left. exists l. split; [reflexivity|].
    injection Hall as Hall. now apply bool_decide_eq_true in Hall.
Qed.

(** X6.  One candidate whose category is neither a list nor a string (the
    cell was missing in the table) makes the membership test raise, and the
    whole search returns the empty list, also when other candidates carry
    the category. *)
Theorem get_similar_by_category_unreadable
    {W : Type} (store_search : string -> nat -> Eff W (list Document))
    (query category : string) (k : nat) (w w1 : W)
    (cands : list Document) (d : Document) (shown : string) :
  store_search query (k * 3)%nat w = (Ok cands, w1) ->
  d ∈ cands ->
  metadata d !! "Category" = Some (MOther shown) ->
  get_similar_by_category store_search query category k w = (Ok [], w1).
Proof.
  intros Hs Hd Hm.
  apply (filtered_search_raising store_search (category_in category)
           query k w cands w1 d TypeError Hs Hd).
  unfold category_in. now rewrite Hm.
Qed.

(** X7.  [get_similar_by_classification] compares classifications without
    regard to letter case: two spellings that are equal after [str.lower]
    give the same run, it never raises, returns at most [k] documents, and
    when the store answers they are candidates in rank order whose
    lowercased classification (the empty string when the field is absent)
    is the lowercased request. *)
Theorem get_similar_by_classification_ignores_case
    {W : Type} (store_search : string -> nat -> Eff W (list Document))
    (query classification classification' : string) (k : nat) (w : W) :
  PyStr.lower classification = PyStr.lower classification' ->
  get_similar_by_classification store_search query classification k w
  = get_similar_by_classification store_search query classification' k w
  /\ exists docs w',
       get_similar_by_classification store_search query classification k w = (Ok docs, w')
       /\ (length docs <= k)%nat
       /\ (forall cands w1,
             store_search query (k * 3)%nat w = (Ok cands, w1) ->
             docs `sublist_of` cands
             /\ (forall d, d ∈ docs ->
                   PyStr.lower (match metadata d !! "Classification" with
                                | Some (MStr s) => s
                                | _ => ""
                                end)
                   = PyStr.lower classification')).
Proof.
  intros Hc. split.
  - apply (filtered_search_ext store_search).
    intros d. unfold classification_is. now rewrite Hc.
  - destruct (filtered_search_results store_search (classification_is classification) query k w)
      as (docs & w' & Hrun & Hlen & Hres).
    exists docs, w'. split; [exact Hrun|]. split; [exact Hlen|].
    intros cands w1 Hs. destruct (Hres cands w1 Hs) as (_ & Hsub & Hall).
    split; [exact Hsub|]. intros d Hd. specialize (Hall d Hd).
    unfold classification_is in Hall. rewrite <- Hc.
    destruct (metadata d !! "Classification") as [[s|l|o]|]; try discriminate.
    + injection Hall as Hall. now apply String.eqb_eq in Hall.
    + injection Hall as Hall. simpl in *.
      destruct (PyStr.lower classification); [reflexivity|discriminate].
Qed.

Lemma prefix_has_upper needle hay :
  String.prefix needle hay = true ->
  has_upper needle = true -> has_upper hay = true.
Proof.
  revert hay. induction needle as [|c n IH]; intros hay;
    [intros _ Hup; discriminate Hup|].
  destruct hay as [|c' h]; [simpl; intros Hp; discriminate Hp|]. simpl.
  destruct (ascii_dec c c') as [->|Hne]; [|discriminate].
  intros Hp [Hc|Hn]%orb_true_iff; apply orb_true_iff; [now left|right; now apply IH].
Qed.

Lemma contains_has_upper needle hay :
  PyText.contains needle hay = true ->
  has_upper needle = true -> has_upper hay = true.
Proof.
  induction hay as [|c h IH]; intros Hc Hup; cbn [PyText.contains] in Hc.
  - destruct (String.prefix needle "") eqn:Hp; [|discriminate Hc].
    now apply (prefix_has_upper needle "").
  - destruct (String.prefix needle (String c h)) eqn:Hp.
    + now apply (prefix_has_upper needle (String c h)).
    + cbn [has_upper]. apply orb_true_iff. right. now apply IH.
Qed.

(** X8.  [search_by_sender_domain] lowercases the stored sender but not the
    requested domain: a domain written with a capital letter finds
    nothing. *)
Theorem search_by_sender_domain_uppercase
    {W : Type} (store_search : string -> nat -> Eff W (list Document))
    (query domain : string) (k : nat) (w : W) :
  has_upper domain = true ->
  exists w', search_by_sender_domain store_search query domain k w = (Ok [], w').
Proof.
  intros Hup. apply (filtered_search_none store_search).
  intros d. unfold sender_contains.
  assert (Hno : forall s, PyText.contains domain (PyStr.lower s) <> true).
  { intros s Hc. apply contains_has_upper in Hc; [|exact Hup].
    rewrite lower_no_upper in Hc. discriminate. }
  destruct (metadata d !! "From") as [[s|l|o]|]; try discriminate.
  - intros [= Hc]. now apply (Hno s).
  - intros [= Hc]. now apply (Hno "").
Qed.

(** X9.  When the store answers and every candidate has a string as sender,
    [search_by_sender_domain] returns the first [k] of the candidates whose
    lowercased sender contains the domain as a substring, in rank order. *)
Theorem search_by_sender_domain_substring
    {W : Type} (store_search : string -> nat -> Eff W (list Document))
    (query domain : string) (k : nat) (w w1 : W) (cands : list Document) :
  store_search query (k * 3)%nat w = (Ok cands, w1) ->
  (forall d, d ∈ cands -> exists s, metadata d !! "From" = Some (MStr s)) ->
  exists kept,
    search_by_sender_domain store_search query domain k w = (Ok (take k kept), w1)
    /\ kept `sublist_of` cands
    /\ (forall d, d ∈ kept <->
          d ∈ cands
          /\ exists s, metadata d !! "From" = Some (MStr s)
                       /\ PyText.contains domain (PyStr.lower s) = true).
Proof.
  intros Hs Hstr.
  destruct (filtered_search_complete store_search (sender_contains domain)
              query k w cands w1 Hs) as (kept & Hrun & Hsub & Hiff).
  { intros d Hd. destruct (Hstr d Hd) as [s Hm]. unfold sender_contains.
    rewrite Hm. eauto. }
  exists kept. split; [exact Hrun|]. split; [exact Hsub|].
  intros d. rewrite Hiff. split.
  - intros [Hd Hc]. split; [exact Hd|]. destruct (Hstr d Hd) as [s Hm].
    exists s. split; [exact Hm|]. unfold sender_contains in Hc. rewrite Hm in Hc.
    congruence.
  - intros [Hd (s & Hm & Hc)]. split; [exact Hd|].
    unfold sender_contains. now rewrite Hm, Hc.
Qed.

(** ** Prompt examples and retrieval context *)

Section ContextFacts.
Context {num W : Type}.
Variable settings : Settings num.
Variable get_relevant_documents : string -> Eff W (list Document).
Variable store_search : string -> nat -> Eff W (list Document).
Variable py_repr_list : list string -> string.

Lemma join_cons_head sep x rest :
  exists tail, PyStr.join sep (x :: rest) = x +:+ tail.
Proof.
  destruct rest as [|y rest]; simpl.
  - exists "". induction x as [|c x IH]; [reflexivity|].
    change (String c x = String c (x +:+ "")). now rewrite <- IH.
  - eauto.
Qed.

Lemma format_examples_nonempty (doc : Document) (rest : list Document) :
  format_examples_for_prompt py_repr_list (doc :: rest) <> no_examples_found.
Proof.
  unfold format_examples_for_prompt. cbn [format_loop].
  destruct (join_cons_head newline (format_example py_repr_list 1 doc)
              (format_loop py_repr_list 2 rest)) as [tail ->].
  unfold format_example, no_examples_found. simpl. discriminate.
Qed.

(** X10.  [format_examples_for_prompt] gives the sentence that no similar
    examples were found exactly for the empty list of documents. *)
Theorem format_examples_sentinel_iff_empty (documents : list Document) :
  format_examples_for_prompt py_repr_list documents = no_examples_found
  <-> documents = [].
Proof.
  split; [|intros ->; reflexivity].
  destruct documents as [|doc rest]; [reflexivity|].
  intros Heq. now apply format_examples_nonempty in Heq.
Qed.

Lemma get_similar_emails_answers (query : string) (k : option nat) (w : W) :
  exists docs w',
    get_similar_emails settings get_relevant_documents query k w = (Ok docs, w').
Proof.
  unfold get_similar_emails, try_except, mbind, eff_bind, mret, eff_ret.
  destruct (get_relevant_documents query w) as [[found|e] w1]; eauto.
Qed.

Lemma count_one_lookup distribution key label :
  default 0%nat (count_one distribution key !! label)
  = (default 0%nat (distribution !! label) + if decide (key = label) then 1 else 0)%nat.
Proof.
  unfold count_one. destruct (decide (key = label)) as [->|Hne].
  - now rewrite lookup_insert_eq.
  - rewrite lookup_insert_ne by exact Hne. lia.
Qed.

Lemma fold_count_one_lookup labels : forall distribution label,
  default 0%nat (fold_left count_one labels distribution !! label)
  = (default 0%nat (distribution !! label) + occurrences label labels)%nat.
Proof.
  unfold occurrences.
  induction labels as [|l labels IH]; intros distribution label; simpl; [lia|].
  rewrite IH, count_one_lookup, filter_cons.
  destruct (decide (l = label)); simpl; lia.
Qed.

Lemma count_categories_lookup distribution doc label :
  default 0%nat (count_categories py_repr_list distribution doc !! label)
  = (default 0%nat (distribution !! label)
     + occurrences label (category_labels py_repr_list doc))%nat.
Proof.
  unfold count_categories, category_labels.
  destruct (default (MList []) (metadata doc !! "Category")) as [s|l|o].
  - apply (fold_count_one_lookup [_]).
  - apply fold_count_one_lookup.
  - apply (fold_count_one_lookup [_]).
Qed.

Lemma fold_count_categories_lookup docs : forall distribution label,
  default 0%nat (fold_left (count_categories py_repr_list) docs distribution !! label)
  = (default 0%nat (distribution !! label)
     + occurrences label (docs ≫= category_labels py_repr_list))%nat.
Proof.
  induction docs as [|d docs IH]; intros distribution label; cbn [fold_left].
  - unfold occurrences. cbn. lia.
  - rewrite IH, count_categories_lookup. unfold occurrences.
    rewrite bind_cons, filter_app, length_app. lia.
Qed.

Lemma count_one_positive distribution key label :
  (forall l n, distribution !! l = Some n -> (0 < n)%nat) ->
  forall n, count_one distribution key !! label = Some n -> (0 < n)%nat.
Proof.
  intros Hpos n. unfold count_one. destruct (decide (key = label)) as [->|Hne].
  - rewrite lookup_insert_eq. intros [= <-]. lia.
  - rewrite lookup_insert_ne by exact Hne. apply Hpos.
Qed.

Lemma fold_count_one_positive labels : forall distribution,
  (forall l n, distribution !! l = Some n -> (0 < n)%nat) ->
  forall l n, fold_left count_one labels distribution !! l = Some n -> (0 < n)%nat.
Proof.
  induction labels as [|x labels IH]; intros distribution Hpos; simpl; [exact Hpos|].
  apply IH. intros l n. now apply count_one_positive.
Qed.

Lemma fold_count_categories_positive docs : forall distribution,
  (forall l n, distribution !! l = Some n -> (0 < n)%nat) ->
  forall l n,
    fold_left (count_categories py_repr_list) docs distribution !! l = Some n ->
    (0 < n)%nat.
Proof.
  induction docs as [|d docs IH]; intros distribution Hpos; simpl; [exact Hpos|].
  apply IH. unfold count_categories.
  destruct (default (MList []) (metadata d !! "Category")) as [s|cats|o].
  - intros l n. now apply count_one_positive.
  - now apply fold_count_one_positive.
  - intros l n. now apply count_one_positive.
Qed.

(** X11.  [get_context_for_email] always returns a context.  Its count is the
    number of its documents, its text is their formatting (the no-examples
    sentence exactly when there are none), and its tally maps a label to the
    number of times the documents carry it -- once per item of a category
    list, once for a category kept as one value -- and has no entry for a
    label that does not occur. *)
Theorem get_context_for_email_tally (subject body : string) (use_diverse : bool) (w : W) :
  exists ctx w',
    get_context_for_email settings get_relevant_documents store_search py_repr_list
      subject body use_diverse w = (Ok ctx, w')
    /\ num_examples ctx = length (similar_documents ctx)
    /\ formatted_examples ctx
       = format_examples_for_prompt py_repr_list (similar_documents ctx)
    /\ (formatted_examples ctx = no_examples_found <-> num_examples ctx = 0%nat)
    /\ (forall label,
          category_distribution ctx !! label
          = let n := occurrences label
                       (similar_documents ctx ≫= category_labels py_repr_list) in
            if decide (n = 0%nat) then None else Some n).
Proof.
  assert (Hdocs : exists docs w',
    (if use_diverse
     then get_diverse_examples settings get_relevant_documents store_search
            (subject +:+ " " +:+ body) (default 3%nat (search_k settings))
     else get_similar_emails settings get_relevant_documents
            (subject +:+ " " +:+ body) None) w = (Ok docs, w')).
  { destruct use_diverse.
    - unfold get_diverse_examples, try_except at 1, mbind, eff_bind.
      destruct (store_search _ _ w) as [[cands|e] w1].
      + destruct (first_pass _ cands ∅ []) as [seen diverse]. eauto.
      + apply get_similar_emails_answers.
    - apply get_similar_emails_answers. }
  destruct Hdocs as (docs & w' & Hdocs).
  unfold get_context_for_email, mbind, eff_bind. rewrite Hdocs.
  eexists. eexists. split; [reflexivity|]. cbn [num_examples similar_documents
    formatted_examples category_distribution].
  split; [reflexivity|]. split; [reflexivity|]. split.
  - destruct docs as [|doc rest]; [split; reflexivity|].
    split; [intros Heq; now apply format_examples_nonempty in Heq|discriminate].
  - intros label. cbv zeta.
    pose proof (fold_count_categories_lookup docs ∅ label) as Hcount.
    rewrite lookup_empty in Hcount. cbn [default] in Hcount.
    rewrite Nat.add_0_l in Hcount.
    change (docs ≫= category_labels py_repr_list)
      with (list_bind _ _ (category_labels py_repr_list) docs) in Hcount.
    destruct (fold_left (count_categories py_repr_list) docs ∅ !! label) as [n|] eqn:Hl;
      cbn in Hcount; unfold id in Hcount; rewrite <- Hcount.
    + assert (Hpos : (0 < n)%nat).
      { eapply fold_count_categories_positive; [|exact Hl].
        intros l m. rewrite lookup_empty. discriminate. }
      destruct (decide (n = 0%nat)); [lia|reflexivity].
    + reflexivity.
Qed.

End ContextFacts.

(** ** Diverse retrieval: what the selection holds *)

Section DiverseMore.
Context {num W : Type}.
Variable settings : Settings num.
Variable get_relevant_documents : string -> Eff W (list Document).
Variable store_search : string -> nat -> Eff W (list Document).

(** The run of [get_diverse_examples] when the store answers. *)
Lemma get_diverse_examples_run query k w w' candidates :
  store_search query (k * 2)%nat w = (Ok candidates, w') ->
  (length candidates <= k * 2)%nat ->
  get_diverse_examples settings get_relevant_documents store_search query k w
  = (Ok (spec_diverse_examples k candidates), w').
Proof.
  intros Hsearch Hlen.
  unfold get_diverse_examples, try_except, mbind, eff_bind.
  rewrite Hsearch.
  destruct (first_pass k candidates ∅ []) as [seen diverse] eqn:Hfp.
  assert (Hdiv : diverse = take k (category_representatives [] candidates)).
  { change diverse with (seen, diverse).2. rewrite <- Hfp.
    destruct k as [|k'].
    - destruct candidates; [reflexivity|simpl in Hlen; lia].
    - rewrite (first_pass_spec (S k') candidates [] ∅ []).
      + simpl length. now rewrite Nat.sub_0_r.
      + intros key. rewrite fmap_nil. split; intros Hk.
        * now apply not_elem_of_empty in Hk.
        * now apply not_elem_of_nil in Hk.
      + simpl. lia. }
  subst diverse. unfold mret, eff_ret, spec_diverse_examples. do 2 f_equal.
  set (pass1 := take k (category_representatives [] candidates)).
  destruct (Nat.ltb_spec (length pass1) k) as [Hlt|Hge].
  - rewrite <- (app_nil_r pass1) at 1.
    rewrite (second_pass_spec k pass1 candidates [] []).
    + now rewrite !app_nil_r.
    + intros d. rewrite app_nil_r. split; [tauto|].
      intros [?|Hd]; [assumption|]. now apply not_elem_of_nil in Hd.
    + now rewrite app_nil_r.
  - replace (k - length pass1)%nat with 0%nat by lia.
    now rewrite take_0, app_nil_r.
Qed.

Lemma category_representatives_cover docs : forall earlier c,
  c ∈ docs ->
  category_key c ∈ category_key <$> earlier
  \/ category_key c ∈ category_key <$> category_representatives earlier docs.
Proof.
  induction docs as [|x docs IH]; intros earlier c Hc; [now apply not_elem_of_nil in Hc|].
  simpl. apply elem_of_cons in Hc as [->|Hc].
  - destruct (decide _) as [Hx|Hx]; [now left|]. right. rewrite fmap_cons. left.
  - destruct (IH (earlier ++ [x]) c Hc) as [He|Hr].
    + rewrite fmap_app, elem_of_app in He. destruct He as [He|He]; [now left|].
      simpl in He. apply list_elem_of_singleton in He.
      destruct (decide _) as [Hx|Hx]; [left; now rewrite He|].
      right. rewrite fmap_cons, He. left.
    + right. destruct (decide _); [exact Hr|]. rewrite fmap_cons. now right.
Qed.

Lemma split_by_selection (selected all : list Document) :
  NoDup selected -> NoDup all -> (forall d, d ∈ selected -> d ∈ all) ->
  Permutation all (selected ++ filter (fun d => d ∉ selected) all).
Proof.
  intros Hs Ha Hsub. apply NoDup_Permutation; [exact Ha| |].
  - apply NoDup_app. split; [exact Hs|]. split; [|now apply NoDup_filter].
    intros d Hd Hf. apply list_elem_of_filter in Hf. tauto.
  - intros d. rewrite elem_of_app, list_elem_of_filter. split.
    + intros Hd. destruct (decide (d ∈ selected)); tauto.
    + intros [Hd|[_ Hd]]; [now apply Hsub|exact Hd].
Qed.

(** X12.  When the store answers with at most [2k] candidates that differ
    pairwise (in text or metadata), [get_diverse_examples] returns pairwise
    different documents, all of them candidates, and as many as [k] allows:
    the minimum of [k] and the number of candidates. *)
Theorem get_diverse_examples_distinct
    (query : string) (k : nat) (w w' : W) (candidates : list Document) :
  store_search query (k * 2)%nat w = (Ok candidates, w') ->
  (length candidates <= k * 2)%nat ->
  NoDup candidates ->
  exists docs,
    get_diverse_examples settings get_relevant_documents store_search query k w
    = (Ok docs, w')
    /\ NoDup docs
    /\ (forall d, d ∈ docs -> d ∈ candidates)
    /\ length docs = min k (length candidates).
Proof.
  intros Hs Hlen Hnd. exists (spec_diverse_examples k candidates).
  split; [now apply get_diverse_examples_run|].
  unfold spec_diverse_examples, unused_candidates.
  rewrite (first_occurrences_NoDup candidates []) by exact Hnd.
  set (reps := category_representatives [] candidates).
  set (pass1 := take k reps).
  assert (Hreps : NoDup reps).
  { apply (NoDup_fmap_1 category_key), category_representatives_NoDup. }
  assert (Hp1 : NoDup pass1) by (eapply sublist_NoDup; [exact Hreps|apply sublist_take]).
  assert (Hin : forall d, d ∈ pass1 -> d ∈ candidates).
  { intros d Hd. eapply elem_of_sublist; [exact Hd|].
    etransitivity; [apply sublist_take|apply category_representatives_sublist]. }
  pose proof (split_by_selection pass1 candidates Hp1 Hnd Hin) as Hperm.
  assert (Hcount : length candidates
                   = (length pass1 + length (filter (fun d => d ∉ pass1) candidates))%nat).
  { rewrite Hperm at 1. apply length_app. }
  assert (Hlen1 : length pass1 = min k (length reps)) by apply length_take.
  split; [|split].
  - apply NoDup_app. split; [exact Hp1|]. split.
    + intros d Hd Hf.
      apply (fun H => elem_of_sublist _ _ _ H (sublist_take _ _)) in Hf.
      apply list_elem_of_filter in Hf. tauto.
    + eapply sublist_NoDup; [|apply sublist_take]. now apply NoDup_filter.
  - intros d [Hd|Hd]%elem_of_app.
    + now apply Hin.
    + apply (fun H => elem_of_sublist _ _ _ H (sublist_take _ _)) in Hd.
      apply list_elem_of_filter in Hd as [_ Hd]. exact Hd.
  - rewrite length_app, length_take. lia.
Qed.

(** X13.  When the candidates carry at most [k] different category keys, the
    selection has a document for the category key of every candidate. *)
Theorem get_diverse_examples_covers_categories
    (query : string) (k : nat) (w w' : W) (candidates : list Document) :
  store_search query (k * 2)%nat w = (Ok candidates, w') ->
  (length candidates <= k * 2)%nat ->
  (length (category_representatives [] candidates) <= k)%nat ->
  exists docs,
    get_diverse_examples settings get_relevant_documents store_search query k w
    = (Ok docs, w')
    /\ (forall c, c ∈ candidates ->
          exists d, d ∈ docs /\ category_key d = category_key c).
Proof.
  intros Hs Hlen Hk. exists (spec_diverse_examples k candidates).
  split; [now apply get_diverse_examples_run|].
  intros c Hc. unfold spec_diverse_examples.
  rewrite (take_ge (category_representatives [] candidates)) by exact Hk.
  destruct (category_representatives_cover candidates [] c Hc) as [He|Hr].
  - rewrite fmap_nil in He. now apply not_elem_of_nil in He.
  - apply list_elem_of_fmap in Hr as (d & Hkey & Hd).
    exists d. split; [|now symmetry]. apply elem_of_app. now left.
Qed.

(** X14.  When the search of the store raises, [get_diverse_examples] answers
    as [get_similar_emails] does in the world the failure left: the
    documents of the retriever, or the empty list when the retriever raises
    too.  It does not raise. *)
Theorem get_diverse_examples_falls_back
    (query : string) (k : nat) (w w1 : W) (e : exn) :
  store_search query (k * 2)%nat w = (Raise e, w1) ->
  get_diverse_examples settings get_relevant_documents store_search query k w
  = get_similar_emails settings get_relevant_documents query (Some k) w1
  /\ exists docs w',
       get_diverse_examples settings get_relevant_documents store_search query k w
       = (Ok docs, w')
       /\ (forall e' w2, get_relevant_documents query w1 = (Raise e', w2) ->
             docs = [] /\ w' = w2)
       /\ (forall found w2, get_relevant_documents query w1 = (Ok found, w2) ->
             docs = found /\ w' = w2).
Proof.
  intros Hs.
  assert (Hrun : get_diverse_examples settings get_relevant_documents store_search query k w
                 = get_similar_emails settings get_relevant_documents query (Some k) w1).
  { unfold get_diverse_examples, try_except at 1, mbind, eff_bind. now rewrite Hs. }
  split; [exact Hrun|]. rewrite Hrun.
  unfold get_similar_emails, try_except, mbind, eff_bind, mret, eff_ret.
  destruct (get_relevant_documents query w1) as [[found|e'] w2].
  - exists found, w2. split; [reflexivity|]. split; [discriminate|].
    intros f w3 [= <- <-]. auto.
  - exists [], w2. split; [reflexivity|]. split; [|discriminate].
    intros e'' w3 [= <- <-]. auto.
Qed.
End DiverseMore.

(** ** One email: when it is classified and what is kept as evidence *)

Section ClassifierMore.
Context {num W : Type} `{PyNum num}.
Variable settings : Settings num.
Variable get_relevant_documents : string -> Eff W (list Document).
Variable chain_invoke : PromptInput -> Eff W json.
Variable py_str : meta -> string.

Local Abbreviation prompt_for := (prompt_of settings py_str).
Local Abbreviation classify :=
  (classify_email settings get_relevant_documents chain_invoke py_str).

Lemma strings_of_Ok_iff items :
  (exists ss, Py.strings_of items = Ok ss)
  <-> Forall (fun item => exists s, item = JStr s) items.
Proof.
  induction items as [|item items IH]; simpl.
  - split; [constructor|eauto].
  - split.
    + intros [ss Hs]. destruct item; try discriminate.
      destruct (Py.strings_of items) as [ss'|e] eqn:Hi; [|discriminate].
      constructor; [eauto|]. apply IH. eauto.
    + intros Hall. inversion Hall as [|? ? [s ->] Hrest]; subst.
      apply IH in Hrest as [ss ->]. eauto.
Qed.

Lemma normalize_category_string_iff field :
  (exists c, normalize_category field = Ok (JStr c)) <-> category_readable field.
Proof.
  unfold normalize_category, category_readable.
  destruct field as [| [] | z | f | s | items | kv]; simpl.
  - split; [reflexivity|eauto].
  - split; [intros [c [=]]|discriminate].
  - split; [reflexivity|eauto].
  - destruct (z =? 0); simpl; split; eauto; try discriminate. intros [c [=]].
  - destruct f; simpl; split; eauto; try discriminate; intros [c [=]].
  - split; [constructor|]. intros _.
    destruct (s =? "nan")%string; simpl; [eauto|].
    destruct (s =? "")%string; simpl; eauto.
  - destruct items as [|item items]; simpl.
    + split; [constructor|eauto].
    + rewrite <- strings_of_Ok_iff. unfold Py.join. simpl. split.
      * intros [c Hc]. destruct item; try discriminate.
        destruct (Py.strings_of items) as [ss|e]; [eauto|discriminate].
      * intros [ss Hs]. rewrite Hs. eauto.
  - destruct kv; simpl; split; eauto; try discriminate. intros [c [=]].
Qed.

Lemma evidence_of_dict kv :
  evidence_readable (default JNull (Py.lookup kv "evidence")) ->
  evidence_of (JDict kv)
  = Ok (evidence_value (default JNull (Py.lookup kv "evidence"))).
Proof.
  unfold evidence_of, Py.get, evidence_readable, evidence_value.
  destruct (Py.lookup kv "evidence") as [field|]; simpl; [|reflexivity].
  destruct field as [| [] | z | f | s | items | kv']; simpl; try reflexivity;
    try discriminate.
  - intros ->. reflexivity.
  - destruct f; simpl; try reflexivity; discriminate.
  - intros _. destruct s; reflexivity.
  - intros _. destruct items; reflexivity.
  - destruct kv'; [reflexivity|discriminate].
Qed.

Lemma evidence_of_Ok_readable kv ev :
  evidence_of (JDict kv) = Ok ev ->
  evidence_readable (default JNull (Py.lookup kv "evidence")).
Proof.
  unfold evidence_of, Py.get, evidence_readable.
  destruct (Py.lookup kv "evidence") as [field|]; simpl; [|reflexivity].
  destruct field as [| [] | z | f | s | items | kv']; simpl; try reflexivity;
    try discriminate; auto.
  - destruct (z =? 0); simpl; [reflexivity|discriminate].
  - destruct f; simpl; try reflexivity; discriminate.
  - destruct kv'; [reflexivity|discriminate].
Qed.

(** X15.  For a row whose From, To, Subject and Body are strings,
    [classify_email] returns a result exactly when the retriever answers,
    the chain answers with an object, the category field (the string
    Compliant when absent) is a string, a list of strings or an empty value,
    and the evidence field is a list, a string or an empty value.  In every
    other case it raises.  (A row with a cell that is not a string is not a
    [Row]: the statement is silent about it.) *)
Theorem classify_email_succeeds_iff (row : Row) (w : W) :
  (exists r w', classify row w = (Ok r, w'))
  <-> exists docs w1 kv w2,
        get_relevant_documents (row_Body row) w = (Ok docs, w1)
        /\ chain_invoke (prompt_for row docs) w1 = (Ok (JDict kv), w2)
        /\ category_readable (default (JStr "Compliant") (Py.lookup kv "Category"))
        /\ evidence_readable (default JNull (Py.lookup kv "evidence")).
Proof.
  split.
  - intros (r & w' & Hrun).
    destruct (classify_email_inv settings get_relevant_documents chain_invoke py_str
                _ _ _ _ Hrun) as (docs & w1 & kv & c & ev & Hg & Hc & Hn & Hev & _).
    exists docs, w1, kv, w'. split; [exact Hg|]. split; [exact Hc|]. split.
    + apply normalize_category_string_iff. eauto.
    + eapply evidence_of_Ok_readable. exact Hev.
  - intros (docs & w1 & kv & w2 & Hg & Hc & Hcat & Hev).
    apply normalize_category_string_iff in Hcat as [c Hn].
    eexists. exists w2.
    apply (classify_email_Ok settings get_relevant_documents chain_invoke py_str
             row w docs w1 kv w2 c _ Hg Hc Hn (evidence_of_dict kv Hev)).
Qed.

(** X16.  What a result keeps as evidence: the first item of an evidence list,
    the first character of an evidence string, and the empty string when the
    field is absent or an empty list. *)
Theorem classify_email_evidence (row : Row) (w w' : W) (r : Result num) :
  classify row w = (Ok r, w') ->
  exists docs w1 kv,
    get_relevant_documents (row_Body row) w = (Ok docs, w1)
    /\ chain_invoke (prompt_for row docs) w1 = (Ok (JDict kv), w')
    /\ Evidence r = evidence_value (default JNull (Py.lookup kv "evidence"))
    /\ (forall first rest, Py.lookup kv "evidence" = Some (JList (first :: rest)) ->
          Evidence r = first)
    /\ (forall c rest, Py.lookup kv "evidence" = Some (JStr (String c rest)) ->
          Evidence r = JStr (String c EmptyString))
    /\ (Py.lookup kv "evidence" = None \/ Py.lookup kv "evidence" = Some (JList []) ->
          Evidence r = JStr "").
Proof.
  intros Hrun.
  destruct (classify_email_inv settings get_relevant_documents chain_invoke py_str
              _ _ _ _ Hrun) as (docs & w1 & kv & c & ev & Hg & Hc & Hn & Hev & ->).
  exists docs, w1, kv. split; [exact Hg|]. split; [exact Hc|].
  cbn [Evidence].
  pose proof (evidence_of_dict kv (evidence_of_Ok_readable kv ev Hev)) as Hval.
  rewrite Hev in Hval. injection Hval as ->.
  split; [reflexivity|]. split; [|split].
  - intros first rest ->. reflexivity.
  - intros ch rest ->. reflexivity.
  - intros [-> | ->]; reflexivity.
Qed.
End ClassifierMore.

(** ** The batch: where each result comes from *)

Section BatchMore.
Context {num W : Type} `{PyNum num}.
Variable settings : Settings num.
Variable get_relevant_documents : string -> Eff W (list Document).
Variable chain_invoke : PromptInput -> Eff W json.
Variable py_str : meta -> string.

Local Abbreviation classify :=
  (classify_email settings get_relevant_documents chain_invoke py_str).
Local Abbreviation attempts :=
  (email_attempts settings get_relevant_documents chain_invoke py_str).
Local Abbreviation world_after :=
  (final_world settings get_relevant_documents chain_invoke py_str).
Local Abbreviation results_of :=
  (email_results settings get_relevant_documents chain_invoke py_str).

Lemma email_results_indices rows : forall i w,
  (idx <$> results_of i rows w) `sublist_of` (Some <$> seq i (length rows)).
Proof.
  induction rows as [|row rest IH]; intros i w; [constructor|].
  unfold email_results. cbn [email_attempts omap length seq fmap list_fmap].
  unfold kept at 1. cbn [attempt_outcome at_index].
  destruct (classify row w) as [[r|e] w1]; cbn [fst snd].
  - cbn [fmap list_fmap idx set_idx]. apply sublist_skip. apply IH.
  - apply sublist_cons. apply IH.
Qed.

(** X17.  [classify_batch] always returns.  Its results carry pairwise
    different row indices, there are at most as many as rows, and each
    result repeats the four fields of the row at its index; its score is the
    score of its own category text, split at the commas, for its own
    addresses. *)
Theorem classify_batch_results_traceable (rows : list Row) (w : W) :
  exists out,
    classify_batch settings get_relevant_documents chain_invoke py_str rows w
    = (Ok out, world_after rows w)
    /\ NoDup (idx <$> out)
    /\ (length out <= length rows)%nat
    /\ (forall r, r ∈ out ->
          exists i row,
            idx r = Some i /\ rows !! i = Some row
            /\ res_From r = row_From row /\ res_To r = row_To row
            /\ res_Subject r = row_Subject row /\ res_Body r = row_Body row
            /\ Risk_Score r
               = calculate_risk_score settings
                   (map PyStr.strip (PyStr.split "," (Category r)))
                   (res_From r) (res_To r)).
Proof.
  eexists. split; [apply classify_batch_run|].
  set (results := results_of 0 rows w).
  assert (Hsub : (idx <$> filter (fun r => is_non_compliant r) results)
                 `sublist_of` (Some <$> seq 0 (length rows))).
  { etransitivity; [|apply email_results_indices].
    apply fmap_sublist, sublist_filter. }
  split; [|split].
  - rewrite (sorted_reverse_Permutation Risk_Score).
    eapply sublist_NoDup; [|exact Hsub].
    apply NoDup_fmap_2; [intros a b [=]; now subst|apply NoDup_seq].
  - rewrite (sorted_reverse_Permutation Risk_Score).
    apply sublist_length in Hsub. rewrite !length_fmap, length_seq in Hsub. exact Hsub.
  - intros r [_ Hr]%elem_of_batch_output.
    apply elem_of_email_results in Hr as (k & a & r0 & Hka & Ho & ->).
    destruct (email_attempts_lookup _ _ _ _ _ _ _ _ _ Hka) as (_ & Hrow & Hout).
    destruct (classify (at_row a) (world_before a)) as [o w'] eqn:Hrun.
    simpl in Hout. rewrite Ho in Hout. subst o.
    destruct (classify_email_inv settings get_relevant_documents chain_invoke py_str
                _ _ _ _ Hrun) as (docs & w1 & kv & c & ev & _ & _ & _ & _ & ->).
    exists k, (at_row a). repeat split; try reflexivity. exact Hrow.
Qed.

(** X18.  A result whose category is the string Compliant (the value taken when
    the verdict names none) has, under a rubric without a weight for
    Compliant, the score of the empty category list: the external point
    alone. *)
Theorem verdict_without_category_scores_flag
    (row : Row) (w w' : W) (r : Result num) :
  classify row w = (Ok r, w') ->
  Category r = "Compliant" ->
  weights settings !! "Compliant" = None ->
  Risk_Score r = calculate_risk_score settings [] (row_From row) (row_To row).
Proof.
  intros Hrun Hcat Hw.
  destruct (classify_email_inv settings get_relevant_documents chain_invoke py_str
              _ _ _ _ Hrun) as (docs & w1 & kv & c & ev & _ & _ & _ & _ & ->).
  cbn [Category Risk_Score] in *. subst c.
  unfold calculate_risk_score. f_equal. f_equal.
  unfold category_sum. simpl. unfold add_category.
  change (PyStr.strip (PyStr.strip "Compliant")) with "Compliant".
  now rewrite Hw.
Qed.
End BatchMore.

(** ** Ingestion of tables *)

Section IngestionFacts.
Variable page_content_of : cell -> outcome string.

Local Abbreviation create := (create_document_from_row page_content_of).

Lemma counts_as_compliant_spec row :
  cell_eq_str (default (CStr "Compliant") (row !! "Classification")) "Compliant" = true
  <-> counts_as_compliant row.
Proof.
  unfold counts_as_compliant.
  destruct (row !! "Classification") as [[s| | |o]|]; simpl; try (split; [discriminate|]);
    try (intros [?|?]; discriminate).
  - rewrite String.eqb_eq. split; [intros ->; now right|]. intros [?|[= ->]]; [discriminate|reflexivity].
  - split; [now left|reflexivity].
Qed.

(** What a successfully created document holds. *)
Lemma create_document_inv row action doc :
  create row action = Ok doc ->
  exists body sender receiver subject,
    row !! "Body" = Some body /\ row !! "From" = Some sender
    /\ row !! "To" = Some receiver /\ row !! "Subject" = Some subject
    /\ page_content_of body = Ok (page_content doc)
    /\ metadata doc !! "From" = Some (meta_of_cell sender)
    /\ metadata doc !! "To" = Some (meta_of_cell receiver)
    /\ metadata doc !! "Subject" = Some (meta_of_cell subject)
    /\ metadata doc !! "Classification"
       = Some (meta_of_cell (default (CStr "Compliant") (row !! "Classification")))
    /\ metadata doc !! "Category"
       = Some (let category := default (CStr "Compliant") (row !! "Category") in
               let category :=
                 if (cell_eq_str (default (CStr "Compliant") (row !! "Classification"))
                       "Compliant"
                     || cell_is_none category || cell_eq_str category "")%bool
                 then CStr "Compliant" else category in
               match category with
               | CStr s => MList [s]
               | _ => meta_of_cell category
               end).
Proof.
  unfold create_document_from_row, row_item, mbind, outcome_bind, mret, outcome_ret.
  destruct (row !! "Body") as [body|]; [|discriminate].
  destruct (row !! "From") as [sender|]; [|discriminate].
  destruct (row !! "To") as [receiver|]; [|discriminate].
  destruct (row !! "Subject") as [subject|]; [|discriminate].
  destruct (page_content_of body) as [text|e] eqn:Hp; [|discriminate].
  intros [= <-]. exists body, sender, receiver, subject.
  cbn [page_content metadata]. repeat split; try assumption; reflexivity.
Qed.

(** X19.  [create_document_from_row] returns a document exactly when the row
    has the columns Body, From, To and Subject and the document accepts the
    body as its text; a row without one of the four columns is a [KeyError];
    the text of the document is the accepted body. *)
Theorem create_document_requires_columns (row : gmap string cell) (action : string) :
  ((exists doc, create row action = Ok doc)
   <-> exists body sender receiver subject text,
         row !! "Body" = Some body /\ row !! "From" = Some sender
         /\ row !! "To" = Some receiver /\ row !! "Subject" = Some subject
         /\ page_content_of body = Ok text)
  /\ (row !! "Body" = None \/ row !! "From" = None
      \/ row !! "To" = None \/ row !! "Subject" = None ->
      create row action = Raise KeyError)
  /\ (forall doc, create row action = Ok doc ->
        exists body, row !! "Body" = Some body
                     /\ page_content_of body = Ok (page_content doc)).
Proof.
  split; [split|split].
  - intros [doc Hdoc].
    destruct (create_document_inv row action doc Hdoc)
      as (body & sender & receiver & subject & Hb & Hf & Ht & Hs & Hp & _).
    exists body, sender, receiver, subject, (page_content doc). auto.
  - intros (body & sender & receiver & subject & text & Hb & Hf & Ht & Hs & Hp).
    unfold create_document_from_row, row_item, mbind, outcome_bind, mret, outcome_ret.
    rewrite Hb, Hf, Ht, Hs, Hp. eauto.
  - unfold create_document_from_row, row_item, mbind, outcome_bind.
    intros [Hm|[Hm|[Hm|Hm]]];
      destruct (row !! "Body"); try discriminate; try reflexivity;
      destruct (row !! "From"); try discriminate; try reflexivity;
      destruct (row !! "To"); try discriminate; try reflexivity;
      destruct (row !! "Subject"); try discriminate; reflexivity.
  - intros doc Hdoc.
    destruct (create_document_inv row action doc Hdoc)
      as (body & sender & receiver & subject & Hb & _ & _ & _ & Hp & _).
    eauto.
Qed.

(** X20.  The category a document is stored with.  It is the one-item list
    Compliant when the row counts as compliant (its classification is the
    string Compliant or the column is absent), and when the category is
    absent, [None] or empty; for a row that does not count as compliant, a
    non-empty category string is stored as a one-item list and a missing
    value ([nan]) is stored as it is, not as a list. *)
Theorem create_document_category (row : gmap string cell) (action : string) (doc : Document) :
  create row action = Ok doc ->
  (counts_as_compliant row -> metadata doc !! "Category" = Some (MList ["Compliant"]))
  /\ (row !! "Category" = None \/ row !! "Category" = Some CNone
      \/ row !! "Category" = Some (CStr "") ->
      metadata doc !! "Category" = Some (MList ["Compliant"]))
  /\ (~ counts_as_compliant row ->
      (forall s, row !! "Category" = Some (CStr s) -> s <> "" ->
         metadata doc !! "Category" = Some (MList [s]))
      /\ (row !! "Category" = Some CNaN ->
          metadata doc !! "Category" = Some (MOther "nan"))).
Proof.
  intros Hdoc.
  destruct (create_document_inv row action doc Hdoc)
    as (_ & _ & _ & _ & _ & _ & _ & _ & _ & _ & _ & _ & _ & Hcat).
  rewrite Hcat. clear Hcat. cbv zeta.
  split; [|split].
  - intros Hc%counts_as_compliant_spec. now rewrite Hc.
  - intros [Hc|[Hc|Hc]]; rewrite Hc; simpl; rewrite ?orb_true_r;
      try reflexivity.
    destruct (cell_eq_str _ _); reflexivity.
  - intros Hn. rewrite <- counts_as_compliant_spec in Hn.
    apply not_true_is_false in Hn. rewrite Hn. split.
    + intros s -> Hs. simpl. apply String.eqb_neq in Hs. now rewrite Hs.
    + intros ->. reflexivity.
Qed.

(** X21.  The category cell of a non-compliant row is stored as ONE item, not
    split at commas: the membership test of [get_similar_by_category] finds
    the document under the whole cell only, and the whole cell is its
    category key in [get_diverse_examples]. *)
Theorem stored_row_found_by_whole_category
    (row : gmap string cell) (action : string) (doc : Document) (stored category : string) :
  create row action = Ok doc ->
  ~ counts_as_compliant row ->
  row !! "Category" = Some (CStr stored) ->
  stored <> "" ->
  (category_in category doc = Ok true <-> category = stored)
  /\ category_key doc = [stored].
Proof.
  intros Hdoc Hn Hc Hne.
  destruct (create_document_inv row action doc Hdoc)
    as (_ & _ & _ & _ & _ & _ & _ & _ & _ & _ & _ & _ & _ & Hs).
  rewrite <- counts_as_compliant_spec in Hn. apply not_true_is_false in Hn.
  apply String.eqb_neq in Hne.
  rewrite Hn, Hc in Hs. cbn in Hs. rewrite Hne in Hs.
  unfold category_in, category_key. rewrite Hs. split; [|reflexivity].
  split.
  - intros [= Hin]. apply bool_decide_eq_true in Hin.
    now apply list_elem_of_singleton in Hin.
  - intros ->. f_equal. apply bool_decide_eq_true. now apply list_elem_of_singleton.
Qed.

Lemma create_documents_length rows action docs :
  create_documents page_content_of rows action = Ok docs ->
  length docs = length rows
  /\ (forall i row, rows !! i = Some row ->
        exists doc, docs !! i = Some doc /\ create row action = Ok doc).
Proof.
  revert docs. induction rows as [|row rest IH]; intros docs; simpl.
  - intros [= <-]. split; [reflexivity|]. intros i row Hi. discriminate.
  - unfold mbind, outcome_bind, mret, outcome_ret.
    destruct (create row action) as [doc|e] eqn:Hd; [|discriminate].
    destruct (create_documents page_content_of rest action) as [docs'|e]; [|discriminate].
    intros [= <-]. destruct (IH docs' eq_refl) as [Hlen Hall]. split; [simpl; lia|].
    intros [|i] r; simpl.
    + intros [= <-]. eauto.
    + apply Hall.
Qed.

Lemma create_documents_fails rows action row e :
  row ∈ rows -> create row action = Raise e ->
  exists e', create_documents page_content_of rows action = Raise e'.
Proof.
  induction rows as [|r rest IH]; intros Hin Hc; [now apply not_elem_of_nil in Hin|].
  simpl. unfold mbind, outcome_bind, mret, outcome_ret.
  destruct (create r action) as [doc|e1] eqn:Hr; [|eauto].
  apply elem_of_cons in Hin as [->|Hin]; [congruence|].
  destruct (IH Hin Hc) as [e' ->]. eauto.
Qed.

(** X22.  [load_sample_data] adds all rows or none.  If a row cannot be turned
    into a document the call raises and the store is untouched, in memory
    and on disk.  When the call returns, one document per row was appended
    in row order, the saved index is the index in memory, and a manager
    constructed from the saved index is the manager itself. *)
Theorem load_sample_data_all_or_nothing (df : list (gmap string cell)) (self : StoreManager) :
  (forall row e, row ∈ df -> create row "training" = Raise e ->
     exists e', load_sample_data page_content_of df self = (Raise e', self))
  /\ (forall self',
        load_sample_data page_content_of df self = (Ok tt, self') ->
        exists docs,
          create_documents page_content_of df "training" = Ok docs
          /\ vectorstore self' = vectorstore self ++ docs
          /\ length docs = length df
          /\ (forall i row, df !! i = Some row ->
                exists doc, docs !! i = Some doc /\ create row "training" = Ok doc)
          /\ persisted self' = Some (vectorstore self')
          /\ new_manager (persisted self') = self').
Proof.
  unfold load_sample_data, mbind, eff_bind, lift. split.
  - intros row e Hin Hc.
    destruct (create_documents_fails df "training" row e Hin Hc) as [e' ->]. eauto.
  - intros self'.
    destruct (create_documents page_content_of df "training") as [docs|e] eqn:Hd;
      [|discriminate].
    unfold manager_add_documents. intros [= <-].
    destruct (create_documents_length df "training" docs Hd) as [Hlen Hrows].
    exists docs. cbn [vectorstore persisted].
    repeat split; try assumption; reflexivity.
Qed.

End IngestionFacts.

Section RetrievableFacts.
Context {num : Type} `{PyNum num}.
Variable distance : string -> string -> num.
Variable page_content_of : cell -> outcome string.

Lemma similarity_search_all (vs : FAISS) (query : string) (k : nat) :
  (length vs <= k)%nat ->
  Permutation (similarity_search distance vs query k) vs.
Proof.
  intros Hk. unfold similarity_search, faiss_similarity_search, sorted_by.
  rewrite take_ge.
  - apply stable_sort_Permutation.
  - now rewrite (stable_sort_Permutation _ vs).
Qed.

(** X23.  After loading a table into a new store, a search for more documents
    than the table has rows returns every loaded document, together with the
    [initialization] placeholder the store was created with. *)
Theorem loaded_documents_retrievable
    (df : list (gmap string cell)) (self' : StoreManager) (query : string) (k : nat) :
  load_sample_data page_content_of df (new_manager None) = (Ok tt, self') ->
  (length df < k)%nat ->
  exists docs,
    create_documents page_content_of df "training" = Ok docs
    /\ Permutation (similarity_search distance (vectorstore self') query k)
         (placeholder :: docs)
    /\ placeholder ∈ similarity_search distance (vectorstore self') query k
    /\ (forall doc, doc ∈ docs ->
          doc ∈ similarity_search distance (vectorstore self') query k).
Proof.
  unfold load_sample_data, mbind, eff_bind, lift.
  destruct (create_documents page_content_of df "training") as [docs|e] eqn:Hd;
    [|discriminate].
  unfold manager_add_documents. intros [= <-] Hk. cbn [vectorstore new_manager].
  destruct (create_documents_length page_content_of df "training" docs Hd) as [Hlen _].
  assert (Hall : Permutation
            (similarity_search distance
               (add_documents (_load_or_create None) docs) query k)
            (placeholder :: docs)).
  { apply similarity_search_all.
    unfold add_documents, faiss_add_documents, _load_or_create, from_texts.
    simpl. lia. }
  exists docs. split; [reflexivity|]. split; [exact Hall|]. split.
  - rewrite Hall. left.
  - intros doc Hdoc. rewrite Hall. now right.
Qed.
End RetrievableFacts.

(** ** Shared resources *)

Section SharedFacts.
Context {num W Llm Manager Retriever : Type}.
Variable settings : Settings num.
Variable make_llm : Eff W Llm.
Variable make_manager : Eff W Manager.
Variable make_retriever : Manager -> Eff W Retriever.

Local Abbreviation State := (Shared num Llm Manager Retriever).
Local Abbreviation run := (call settings make_llm make_manager make_retriever).
Local Abbreviation run_all := (calls settings make_llm make_manager make_retriever).

Lemma call_initialized (r : request) (cls : State) (w : W) :
  cls_initialized cls = true ->
  run r (cls, w) = (Ok (stored cls r), (cls, w)).
Proof.
  intros Hi.
  destruct r; unfold call, get_llm, get_vectorstore_manager, get_retriever,
    get_categories, get_weights, initialize_if_needed, initialize, read,
    mbind, eff_bind, mret, eff_ret; rewrite Hi; reflexivity.
Qed.

Lemma initialize_outcome (cls : State) (w : W) :
  cls_initialized cls = false ->
  forall o cls' w',
    initialize settings make_llm make_manager make_retriever (cls, w) = (o, (cls', w')) ->
    match o with
    | Ok _ =>
        exists llm w1 m w2 r,
          make_llm w = (Ok llm, w1) /\ make_manager w1 = (Ok m, w2)
          /\ make_retriever m w2 = (Ok r, w')
          /\ cls' = {| cls_initialized := true; cls_llm := Some llm;
                       cls_vectorstore_manager := Some m; cls_retriever := Some r;
                       cls_categories := Some (categories settings);
                       cls_weights := Some (weights settings) |}
    | Raise _ => cls_initialized cls' = false
    end.
Proof.
  intros Hi o cls' w'.
  unfold initialize, read, outside, set_llm, set_vectorstore_manager, set_retriever,
    set_categories, set_weights, set_initialized, assign,
    mbind, eff_bind, mret, eff_ret.
  rewrite Hi.
  destruct (make_llm w) as [[llm|e] w1] eqn:Hl.
  2:{ intros [= <- <- <-]. exact Hi. }
  cbn.
  destruct (make_manager w1) as [[m|e] w2] eqn:Hm.
  2:{ intros [= <- <- <-]. exact Hi. }
  cbn.
  destruct (make_retriever m w2) as [[r|e] w3] eqn:Hr.
  2:{ intros [= <- <- <-]. exact Hi. }
  cbn. intros [= <- <- <-].
  exists llm, w1, m, w2, r. repeat split; assumption.
Qed.

Lemma call_outcome (r : request) (cls : State) (w : W) :
  forall o cls' w',
    run r (cls, w) = (o, (cls', w')) ->
    match o with
    | Ok a => cls_initialized cls' = true /\ a = stored cls' r
    | Raise _ => cls_initialized cls' = false
    end.
Proof.
  intros o cls' w' Hrun.
  destruct (cls_initialized cls) eqn:Hi.
  - rewrite call_initialized in Hrun by exact Hi.
    injection Hrun as <- <- <-. split; [exact Hi | reflexivity].
  - destruct (initialize settings make_llm make_manager make_retriever (cls, w))
      as [oi [ci wi]] eqn:Hinit.
    pose proof (initialize_outcome cls w Hi _ _ _ Hinit) as Hout.
    destruct r; unfold call, get_llm, get_vectorstore_manager, get_retriever,
      get_categories, get_weights, initialize_if_needed, read in Hrun;
      unfold mbind, eff_bind, mret, eff_ret in Hrun; cbn beta iota in Hrun;
      rewrite ?Hi in Hrun; cbn [negb] in Hrun; rewrite Hinit in Hrun;
      (destruct oi as [[]|e];
       [ destruct Hout as (llm & w1 & m & w2 & rt & _ & _ & _ & ->);
         injection Hrun as <- <- <-; split; reflexivity
       | injection Hrun as <- <- <-; exact Hout ]).
Qed.

Lemma call_uninitialized_Ok (r : request) (cls : State) (w : W) :
  cls_initialized cls = false ->
  forall a cls' w',
    run r (cls, w) = (Ok a, (cls', w'))
    <-> exists llm w1 m w2 rt,
          make_llm w = (Ok llm, w1) /\ make_manager w1 = (Ok m, w2)
          /\ make_retriever m w2 = (Ok rt, w')
          /\ cls' = {| cls_initialized := true; cls_llm := Some llm;
                       cls_vectorstore_manager := Some m; cls_retriever := Some rt;
                       cls_categories := Some (categories settings);
                       cls_weights := Some (weights settings) |}
          /\ a = stored cls' r.
Proof.
  intros Hi a cls' w'. split.
  - intros Hrun.
    destruct (call_outcome r cls w _ _ _ Hrun) as [_ Ha].
    destruct (initialize settings make_llm make_manager make_retriever (cls, w))
      as [oi [ci wi]] eqn:Hinit.
    pose proof (initialize_outcome cls w Hi _ _ _ Hinit) as Hout.
    destruct r; unfold call, get_llm, get_vectorstore_manager, get_retriever,
      get_categories, get_weights, initialize_if_needed, read in Hrun;
      unfold mbind, eff_bind, mret, eff_ret in Hrun; cbn beta iota in Hrun;
      rewrite ?Hi in Hrun; cbn [negb] in Hrun; rewrite Hinit in Hrun;
      (destruct oi as [[]|e0]; [|discriminate Hrun]);
      destruct Hout as (llm & w1 & m & w2 & rt & Hl & Hm & Hr & ->);
      injection Hrun as <- <- <-;
      exists llm, w1, m, w2, rt; repeat split; assumption.
  - intros (llm & w1 & m & w2 & rt & Hl & Hm & Hr & -> & ->).
    destruct r; unfold call, get_llm, get_vectorstore_manager, get_retriever,
      get_categories, get_weights, initialize_if_needed, initialize, read, outside,
      set_llm, set_vectorstore_manager, set_retriever, set_categories, set_weights,
      set_initialized, assign, mbind, eff_bind, mret, eff_ret;
      cbn beta iota; rewrite ?Hi; cbn [negb]; rewrite ?Hi, Hl; cbn;
      rewrite Hm; cbn; rewrite Hr; reflexivity.
Qed.

(** X24.  Once a getter or [initialize] has returned, every later sequence of
    getters and [initialize] calls only reads the class: each call returns
    the stored value, the class attributes stay as they are, and no
    constructor runs again (the outside world is left as it is). *)
Theorem shared_resources_built_once (first : request) (later : list request)
    (cls cls' : State) (w w' : W) (a : answer num Llm Manager Retriever) :
  run first (cls, w) = (Ok a, (cls', w')) ->
  run_all later (cls', w') = (Ok (map (stored cls') later), (cls', w')).
Proof.
  intros Hfirst.
  destruct (call_outcome first cls w _ _ _ Hfirst) as [Hi _].
  induction later as [|r rest IH].
  - reflexivity.
  - cbn [calls map]. unfold mbind, eff_bind at 1.
    rewrite (call_initialized r cls' w' Hi).
    unfold mbind, eff_bind at 1. rewrite IH. reflexivity.
Qed.

(** X25.  A call that raises leaves the class uninitialised, and what the
    failed attempt assigned does not show in a later success: the next call
    succeeds from the state the failure left behind exactly when it succeeds
    from the pristine class, with the same answer, the same attributes and
    the same world. *)
Theorem failed_initialisation_leaves_no_trace (r next : request) (cls cls' : State)
    (w w' : W) (e : exn) :
  run r (cls, w) = (Raise e, (cls', w')) ->
  cls_initialized cls' = false
  /\ forall a cls2 w2,
       run next (cls', w') = (Ok a, (cls2, w2))
       <-> run next (fresh_class, w') = (Ok a, (cls2, w2)).
Proof.
  intros Hrun.
  pose proof (call_outcome r cls w _ _ _ Hrun) as Hi. cbn in Hi.
  split; [exact Hi|].
  intros a cls2 w2.
  rewrite (call_uninitialized_Ok next cls' w' Hi).
  rewrite (call_uninitialized_Ok next fresh_class w' eq_refl).
  reflexivity.
Qed.

(** X26.  [reload_vectorstore] replaces the manager and the retriever and
    nothing else.  On an initialised class the getters then hand out the new
    pair without constructing anything.  On a class that is not initialised
    the reload is lost: the next call builds everything again, and what it
    returns does not depend on what the reload built. *)
Theorem reload_vectorstore_then_get (cls cls' : State) (w w' : W) :
  reload_vectorstore make_manager make_retriever (cls, w) = (Ok tt, (cls', w')) ->
  (exists m w1 r,
     make_manager w = (Ok m, w1) /\ make_retriever m w1 = (Ok r, w')
     /\ cls' = {| cls_initialized := cls_initialized cls; cls_llm := cls_llm cls;
                  cls_vectorstore_manager := Some m; cls_retriever := Some r;
                  cls_categories := cls_categories cls;
                  cls_weights := cls_weights cls |}
     /\ (cls_initialized cls = true ->
         run GetVectorstoreManager (cls', w') = (Ok (AManager (Some m)), (cls', w'))
         /\ run GetRetriever (cls', w') = (Ok (ARetriever (Some r)), (cls', w'))))
  /\ (cls_initialized cls = false ->
      forall next a cls2 w2,
        run next (cls', w') = (Ok a, (cls2, w2))
        <-> run next (fresh_class, w') = (Ok a, (cls2, w2))).
Proof.
  intros Hrun.
  assert (Hshape : exists m w1 r,
    make_manager w = (Ok m, w1) /\ make_retriever m w1 = (Ok r, w')
    /\ cls' = {| cls_initialized := cls_initialized cls; cls_llm := cls_llm cls;
                 cls_vectorstore_manager := Some m; cls_retriever := Some r;
                 cls_categories := cls_categories cls;
                 cls_weights := cls_weights cls |}).
  { revert Hrun.
    unfold reload_vectorstore, outside, set_vectorstore_manager, set_retriever, assign,
      mbind, eff_bind.
    destruct (make_manager w) as [[m|e] w1] eqn:Hm; [|discriminate].
    cbn. destruct (make_retriever m w1) as [[r|e] w2] eqn:Hr; [|discriminate].
    cbn. intros [= <- <-]. exists m, w1, r. auto. }
  destruct Hshape as (m & w1 & r & Hm & Hr & Hcls). split.
  - exists m, w1, r. split; [exact Hm|]. split; [exact Hr|].
    split; [exact Hcls|]. intros Hi.
    assert (Hi' : cls_initialized cls' = true) by (rewrite Hcls; exact Hi).
    rewrite !call_initialized by exact Hi'. rewrite Hcls. split; reflexivity.
  - intros Hi next a cls2 w2.
    assert (Hi' : cls_initialized cls' = false) by (rewrite Hcls; exact Hi).
    rewrite (call_uninitialized_Ok next cls' w' Hi').
    rewrite (call_uninitialized_Ok next fresh_class w' eq_refl).
    reflexivity.
Qed.

End SharedFacts.

(** ** Sample runs of the properties above *)

Lemma score_ignores_address_case_witness :
  calculate_risk_score (rubric ["x.com"]) ["Secrecy"] "Ann@X.COM" "bob@x.com"
  = calculate_risk_score (rubric ["x.com"]) ["Secrecy"] "ann@x.com" "Bob@X.com".
Proof. apply score_ignores_address_case; reflexivity. Defined.

Lemma uppercase_trusted_domain_flags_all_witness :
  external_score (rubric ["Enron.com"]) "a@enron.com" "b@enron.com" = 1.
Proof.
  apply (uppercase_trusted_domain_flags_all (rubric ["Enron.com"]) "Enron.com").
  - left. reflexivity.
  - reflexivity.
Defined.

Lemma two_trusted_domains_flag_all_witness :
  external_score (rubric ["enron.com"; "partner.org"]) "a@enron.com" "b@enron.com" = 1.
Proof.
  apply (two_trusted_domains_flag_all (rubric ["enron.com"; "partner.org"])
           "enron.com" "partner.org").
  - left. reflexivity.
  - right. left. reflexivity.
  - discriminate.
Defined.

Lemma get_similar_by_category_results_witness :
  exists docs,
    get_similar_by_category (ranked_store ranked_emails) "q" "Secrecy" 1 tt = (Ok docs, tt)
    /\ (length docs <= 1)%nat
    /\ docs `sublist_of` ranked_emails.
Proof.
  destruct (get_similar_by_category_results (ranked_store ranked_emails)
              "q" "Secrecy" 1 tt) as (docs & [] & Hrun & Hlen & Hres).
  exists docs. split; [exact Hrun|]. split; [exact Hlen|].
  exact (proj1 (Hres ranked_emails tt eq_refl)).
Defined.

Lemma get_similar_by_category_unreadable_witness :
  get_similar_by_category (ranked_store (ranked_emails ++ [uncategorised_email]))
    "q" "Secrecy" 2 tt = (Ok [], tt).
Proof.
  apply (get_similar_by_category_unreadable
           (ranked_store (ranked_emails ++ [uncategorised_email]))
           "q" "Secrecy" 2 tt tt (ranked_emails ++ [uncategorised_email])
           uncategorised_email "nan").
  - reflexivity.
  - do 3 right. left.
  - reflexivity.
Defined.

Lemma get_similar_by_classification_ignores_case_witness :
  get_similar_by_classification (ranked_store ranked_emails) "q" "NON-COMPLIANT" 2 tt
  = get_similar_by_classification (ranked_store ranked_emails) "q" "non-compliant" 2 tt.
Proof.
  apply (proj1 (get_similar_by_classification_ignores_case
                  (ranked_store ranked_emails) "q" "NON-COMPLIANT" "non-compliant"
                  2 tt eq_refl)).
Defined.

Lemma search_by_sender_domain_uppercase_witness :
  exists w',
    search_by_sender_domain (ranked_store ranked_emails) "q" "Enron.com" 3 w' = (Ok [], w').
Proof.
  exists tt.
  destruct (search_by_sender_domain_uppercase (ranked_store ranked_emails)
              "q" "Enron.com" 3 tt eq_refl) as [[] Hrun].
  exact Hrun.
Defined.

Lemma search_by_sender_domain_substring_witness :
  exists kept,
    search_by_sender_domain (ranked_store ranked_emails) "q" "enron" 2 tt
    = (Ok (take 2 kept), tt)
    /\ kept `sublist_of` ranked_emails.
Proof.
  destruct (search_by_sender_domain_substring (ranked_store ranked_emails)
              "q" "enron" 2 tt tt ranked_emails eq_refl) as (kept & Hrun & Hsub & _).
  - intros d Hd. unfold ranked_emails in Hd.
    repeat (apply elem_of_cons in Hd as [->|Hd]); try (eexists; reflexivity).
    now apply not_elem_of_nil in Hd.
  - exists kept. split; [exact Hrun|exact Hsub].
Defined.

Lemma format_examples_sentinel_iff_empty_witness :
  format_examples_for_prompt bracketed ranked_emails <> no_examples_found.
Proof.
  intros Heq.
  apply (proj1 (format_examples_sentinel_iff_empty bracketed ranked_emails)) in Heq.
  discriminate Heq.
Defined.

Lemma get_context_for_email_tally_witness :
  exists ctx,
    get_context_for_email (rubric ["x.com"]) (fixed_retriever ranked_emails)
      (ranked_store ranked_emails) bracketed "status" "hello" true tt = (Ok ctx, tt)
    /\ num_examples ctx = length (similar_documents ctx).
Proof.
  destruct (get_context_for_email_tally (rubric ["x.com"]) (fixed_retriever ranked_emails)
              (ranked_store ranked_emails) bracketed "status" "hello" true tt)
    as (ctx & [] & Hrun & Hnum & _).
  exists ctx. split; [exact Hrun|exact Hnum].
Defined.

Lemma get_diverse_examples_distinct_witness :
  exists docs,
    get_diverse_examples (rubric ["x.com"]) (fixed_retriever [])
      (ranked_store ranked_AABC) "q" 2 tt = (Ok docs, tt)
    /\ NoDup docs.
Proof.
  destruct (get_diverse_examples_distinct (rubric ["x.com"]) (fixed_retriever [])
              (ranked_store ranked_AABC) "q" 2 tt tt ranked_AABC eq_refl)
    as (docs & Hrun & Hnd & _).
  - simpl. lia.
  - apply (bool_decide_unpack _). vm_compute. exact I.
  - exists docs. split; [exact Hrun|exact Hnd].
Defined.

Lemma get_diverse_examples_covers_categories_witness :
  exists docs,
    get_diverse_examples (rubric ["x.com"]) (fixed_retriever [])
      (ranked_store ranked_AABC) "q" 3 tt = (Ok docs, tt)
    /\ exists d, d ∈ docs /\ category_key d = ["C"].
Proof.
  destruct (get_diverse_examples_covers_categories (rubric ["x.com"]) (fixed_retriever [])
              (ranked_store ranked_AABC) "q" 3 tt tt ranked_AABC eq_refl)
    as (docs & Hrun & Hcover).
  - simpl. lia.
  - vm_compute. lia.
  - exists docs. split; [exact Hrun|].
    apply (Hcover (example_doc "fourth" "C")). do 3 right. left.
Defined.

Lemma get_diverse_examples_falls_back_witness :
  get_diverse_examples (rubric ["x.com"]) (fixed_retriever ranked_AABC)
    failing_store "q" 2 tt
  = get_similar_emails (rubric ["x.com"]) (fixed_retriever ranked_AABC) "q" (Some 2%nat) tt.
Proof.
  apply (proj1 (get_diverse_examples_falls_back (rubric ["x.com"])
                  (fixed_retriever ranked_AABC) failing_store "q" 2 tt tt
                  (LibraryError "index cannot be searched") eq_refl)).
Defined.

Lemma classify_email_succeeds_iff_witness :
  exists r w',
    classify_email rubric_1379 no_examples
      (scripted_chain [("m1", Ok (JDict two_category_fields))]) shown (mail "m1") tt
    = (Ok r, w').
Proof.
  apply (proj2 (classify_email_succeeds_iff rubric_1379 no_examples
                  (scripted_chain [("m1", Ok (JDict two_category_fields))]) shown
                  (mail "m1") tt)).
  exists [], tt, two_category_fields, tt.
  split; [reflexivity|]. split; [reflexivity|]. split.
  - repeat constructor; eexists; reflexivity.
  - exact I.
Defined.

Lemma classify_email_evidence_witness :
  exists r,
    classify_email rubric_1379 no_examples
      (scripted_chain [("m1", Ok (JDict no_category_fields))]) shown (mail "m1") tt
    = (Ok r, tt)
    /\ Evidence r = JStr "".
Proof.
  destruct (classify_email rubric_1379 no_examples
              (scripted_chain [("m1", Ok (JDict no_category_fields))]) shown
              (mail "m1") tt) as [[r|e] []] eqn:Hrun.
  - exists r. split; [reflexivity|].
    destruct (classify_email_evidence rubric_1379 no_examples
                (scripted_chain [("m1", Ok (JDict no_category_fields))]) shown
                (mail "m1") tt tt r Hrun) as (docs & [] & kv & Hg & Hc & _ & _ & _ & Hempty).
    injection Hg as <-. injection Hc as <-.
    apply Hempty. right. reflexivity.
  - vm_compute in Hrun. discriminate Hrun.
Defined.

Lemma classify_batch_results_traceable_witness :
  exists out,
    run_batch answers_all_violations = (Ok out, tt)
    /\ NoDup (idx <$> out)
    /\ (length out <= 5)%nat.
Proof.
  destruct (classify_batch_results_traceable rubric_1379 no_examples
              (scripted_chain answers_all_violations) shown batch5 tt)
    as (out & Hrun & Hnd & Hlen & _).
  exists out. split; [exact Hrun|]. split; [exact Hnd|exact Hlen].
Defined.

Lemma category_list_round_trip_witness :
  map PyStr.strip (PyStr.split "," (PyStr.join ", " ["Nine"; "One"])) = ["Nine"; "One"]
  /\ calculate_risk_score rubric_1379
       (map PyStr.strip (PyStr.split "," (PyStr.join ", " ["Nine"; "One"])))
       "a@x.com" "b@x.com"
     = calculate_risk_score rubric_1379 ["Nine"; "One"] "a@x.com" "b@x.com".
Proof.
  apply (category_list_round_trip rubric_1379 ["Nine"; "One"] "a@x.com" "b@x.com").
  - discriminate.
  - repeat constructor.
Defined.

Lemma verdict_without_category_scores_flag_witness :
  exists r,
    classify_email rubric_1379 no_examples
      (scripted_chain [("m1", Ok (JDict no_category_fields))]) shown (mail "m1") tt
    = (Ok r, tt)
    /\ Risk_Score r = calculate_risk_score rubric_1379 [] "a@x.com" "b@x.com".
Proof.
  destruct (classify_email rubric_1379 no_examples
              (scripted_chain [("m1", Ok (JDict no_category_fields))]) shown
              (mail "m1") tt) as [[r|e] []] eqn:Hrun.
  - exists r. split; [reflexivity|].
    apply (verdict_without_category_scores_flag rubric_1379 no_examples
             (scripted_chain [("m1", Ok (JDict no_category_fields))]) shown
             (mail "m1") tt tt r Hrun).
    + pose proof Hrun as Hc. vm_compute in Hc. injection Hc as <-. reflexivity.
    + reflexivity.
  - vm_compute in Hrun. discriminate Hrun.
Defined.

Lemma create_document_requires_columns_witness :
  create_document_from_row text_of_cell row_without_subject "training" = Raise KeyError.
Proof.
  apply (proj1 (proj2 (create_document_requires_columns text_of_cell
                         row_without_subject "training"))).
  do 3 right. reflexivity.
Defined.

Lemma create_document_category_witness :
  exists doc,
    create_document_from_row text_of_cell
      (table_row "keep this quiet" "Secrecy" "Compliant") "training" = Ok doc
    /\ metadata doc !! "Category" = Some (MList ["Compliant"]).
Proof.
  destruct (create_document_from_row text_of_cell
              (table_row "keep this quiet" "Secrecy" "Compliant") "training")
    as [doc|e] eqn:Hdoc.
  - exists doc. split; [reflexivity|].
    apply (proj1 (create_document_category text_of_cell _ _ doc Hdoc)).
    right. reflexivity.
  - vm_compute in Hdoc. discriminate Hdoc.
Defined.

Lemma stored_row_found_by_whole_category_witness :
  exists doc,
    create_document_from_row text_of_cell
      (table_row "keep this quiet" "Secrecy" "Non-Compliant") "training" = Ok doc
    /\ category_key doc = ["Secrecy"].
Proof.
  destruct (create_document_from_row text_of_cell
              (table_row "keep this quiet" "Secrecy" "Non-Compliant") "training")
    as [doc|e] eqn:Hdoc.
  - exists doc. split; [reflexivity|].
    apply (stored_row_found_by_whole_category text_of_cell _ _ doc
             "Secrecy" "Secrecy" Hdoc).
    + intros [Hc|Hc]; vm_compute in Hc; discriminate Hc.
    + reflexivity.
    + discriminate.
  - vm_compute in Hdoc. discriminate Hdoc.
Defined.

Lemma load_sample_data_all_or_nothing_witness :
  exists e,
    load_sample_data text_of_cell
      [table_row "keep this quiet" "Secrecy" "Non-Compliant"; row_without_subject]
      (new_manager None)
    = (Raise e, new_manager None).
Proof.
  apply (proj1 (load_sample_data_all_or_nothing text_of_cell
                  [table_row "keep this quiet" "Secrecy" "Non-Compliant";
                   row_without_subject] (new_manager None))
           row_without_subject KeyError).
  - right. left.
  - reflexivity.
Defined.

Lemma loaded_documents_retrievable_witness :
  exists self',
    load_sample_data text_of_cell
      [table_row "keep this quiet" "Secrecy" "Non-Compliant"] (new_manager None)
    = (Ok tt, self')
    /\ placeholder ∈ similarity_search equidistant (vectorstore self') "quiet" 3.
Proof.
  destruct (load_sample_data text_of_cell
              [table_row "keep this quiet" "Secrecy" "Non-Compliant"] (new_manager None))
    as [[[]|e] self'] eqn:Hrun.
  - exists self'. split; [reflexivity|].
    destruct (loaded_documents_retrievable equidistant text_of_cell _ self' "quiet" 3 Hrun)
      as (docs & _ & _ & Hp & _).
    + simpl. lia.
    + exact Hp.
  - vm_compute in Hrun. discriminate Hrun.
Defined.

Lemma shared_resources_built_once_witness :
  exists cls,
    call (rubric ["x.com"]) counted_llm counted_manager counted_retriever GetLlm
      (fresh_class, 0%nat) = (Ok (AnLlm (Some "model")), (cls, 3%nat))
    /\ calls (rubric ["x.com"]) counted_llm counted_manager counted_retriever
         [GetRetriever; Initialize; GetVectorstoreManager] (cls, 3%nat)
       = (Ok (map (stored cls) [GetRetriever; Initialize; GetVectorstoreManager]),
          (cls, 3%nat)).
Proof.
  eexists. split; [reflexivity|].
  apply (shared_resources_built_once (rubric ["x.com"]) counted_llm counted_manager
           counted_retriever GetLlm _ fresh_class _ 0%nat 3%nat (AnLlm (Some "model"))).
  reflexivity.
Defined.

Lemma failed_initialisation_leaves_no_trace_witness :
  exists e cls w,
    call (rubric ["x.com"]) counted_llm broken_manager counted_retriever GetWeights
      (fresh_class, 0%nat) = (Raise e, (cls, w))
    /\ cls_initialized cls = false.
Proof.
  eexists. eexists. eexists. split; [reflexivity|].
  apply (proj1 (failed_initialisation_leaves_no_trace (rubric ["x.com"]) counted_llm
                  broken_manager counted_retriever GetWeights GetLlm
                  fresh_class _ 0%nat _ _ eq_refl)).
Defined.

Lemma reload_vectorstore_then_get_witness :
  exists cls,
    reload_vectorstore counted_manager counted_retriever (built_class, 3%nat)
    = (Ok tt, (cls, 5%nat))
    /\ call (rubric ["x.com"]) counted_llm counted_manager counted_retriever GetRetriever
         (cls, 5%nat) = (Ok (ARetriever (Some "retriever")), (cls, 5%nat)).
Proof.
  eexists. split; [reflexivity|].
  destruct (reload_vectorstore_then_get (rubric ["x.com"]) counted_llm counted_manager
              counted_retriever built_class _ 3%nat 5%nat eq_refl)
    as [(m & w1 & r & Hm & Hr & _ & Hget) _].
  injection Hr as <- _.
  exact (proj2 (Hget eq_refl)).
Defined.
